(** * Users, posts and likes: the relational model and its two access layers

The repository implements one schema (users, posts, likes) twice: with
TypeORM entities and repositories, and with a Prisma schema and client.
Every service method is one call into the mapping library, so what the
services do is decided by three things, which this file embeds in turn:

- the schema each side declares (entity decorators in
  [typeorm/.../user.entity.ts] and the [like.entity.ts] fragment, the
  [schema.prisma] listing in the comparison document);
- the relational store that interprets such a schema (an external
  collaborator; it is modelled here as tables of rows with sequences,
  uniqueness checks, foreign-key checks and ON DELETE actions);
- the result conventions of the two client libraries ([Repository] of
  TypeORM, the model delegates of Prisma) and the service methods
  written on top of them.

Identifiers and timestamps are JavaScript numbers / dates that only
ever hold integers here; both are [Z]. The clock reading used by a
statement is an explicit argument [now]. *)

From Stdlib Require Import ZArith List String Bool Lia.
Import ListNotations.
Open Scope Z_scope.

(** ** Entities *)

(** [typeorm/users/entities/user.entity.ts], [model User]. The relation
    properties [posts] and [likes] are navigation properties, not columns. *)
Module User.
Record t := mk
  { id : Z; name : string; email : string; createdAt : Z; updatedAt : Z }.
End User.

(** [model Post] of the Prisma schema. *)
Module Post.
Record t := mk
  { id : Z; title : string; content : string; authorId : Z;
    createdAt : Z; updatedAt : Z }.
End Post.

(** [like.entity.ts], [model Like]: no [updatedAt] column. *)
Module Like.
Record t := mk { id : Z; userId : Z; postId : Z; createdAt : Z }.
End Like.

(** ** Input objects

The [Update*Dto] classes extend [PartialType] of the [Create*Dto]
ones: every field becomes optional. *)

Module CreateUserDto.
Record t := mk { name : string; email : string }.
End CreateUserDto.

Module UpdateUserDto.
Record t := mk { name : option string; email : option string }.
Definition is_empty (d : t) : bool :=
  match name d, email d with None, None => true | _, _ => false end.
End UpdateUserDto.

Module CreatePostDto.
Record t := mk { title : string; content : string; authorId : Z }.
End CreatePostDto.

Module UpdatePostDto.
Record t := mk
  { title : option string; content : option string; authorId : option Z }.
Definition is_empty (d : t) : bool :=
  match title d, content d, authorId d with
  | None, None, None => true
  | _, _, _ => false
  end.
End UpdatePostDto.

Module CreateLikeDto.
Record t := mk { userId : Z; postId : Z }.
End CreateLikeDto.

Module UpdateLikeDto.
Record t := mk { userId : option Z; postId : option Z }.
Definition is_empty (d : t) : bool :=
  match userId d, postId d with None, None => true | _, _ => false end.
End UpdateLikeDto.

(** ** Schema declarations *)

Inductive OnDelete := CASCADE | NO_ACTION.

Record Schema := mkSchema
  { user_email_unique : bool;
    like_userId_postId_unique : bool;
    post_author_onDelete : OnDelete;
    like_user_onDelete : OnDelete;
    like_post_onDelete : OnDelete }.

(** The Prisma schema: [email String @unique], [@@unique([userId, postId])]
    and [onDelete: Cascade] on the three relations. *)
Definition prisma_schema : Schema :=
  {| user_email_unique := true;
     like_userId_postId_unique := true;
     post_author_onDelete := CASCADE;
     like_user_onDelete := CASCADE;
     like_post_onDelete := CASCADE |}.

(** Modelled from the spec: the TypeORM [post.entity.ts] is not among the
    sources; the spec declares Post.authorId -> User.id with cascade delete,
    which is what a [@ManyToOne(..., { onDelete: 'CASCADE' })] on
    [Post.author] gives. *)
Definition typeorm_post_author_onDelete : OnDelete := CASCADE.

(** The TypeORM entities: [@Column({ unique: true }) email],
    [@Unique(['userId', 'postId'])] and [{ onDelete: 'CASCADE' }] on
    [Like.user] and [Like.post]. *)
Definition typeorm_schema : Schema :=
  {| user_email_unique := true;
     like_userId_postId_unique := true;
     post_author_onDelete := typeorm_post_author_onDelete;
     like_user_onDelete := CASCADE;
     like_post_onDelete := CASCADE |}.

(** ** The store *)

(** Three tables in insertion order and the three identifier sequences
    ([@PrimaryGeneratedColumn()], [@default(autoincrement())]). *)
Record DB := mkDB
  { users : list User.t; posts : list Post.t; likes : list Like.t;
    users_seq : Z; posts_seq : Z; likes_seq : Z }.

Definition empty_db : DB :=
  {| users := []; posts := []; likes := [];
     users_seq := 1; posts_seq := 1; likes_seq := 1 |}.

Definition set_users (db : DB) (us : list User.t) : DB :=
  {| users := us; posts := posts db; likes := likes db;
     users_seq := users_seq db; posts_seq := posts_seq db;
     likes_seq := likes_seq db |}.

Definition set_posts (db : DB) (ps : list Post.t) : DB :=
  {| users := users db; posts := ps; likes := likes db;
     users_seq := users_seq db; posts_seq := posts_seq db;
     likes_seq := likes_seq db |}.

Definition set_likes (db : DB) (ls : list Like.t) : DB :=
  {| users := users db; posts := posts db; likes := ls;
     users_seq := users_seq db; posts_seq := posts_seq db;
     likes_seq := likes_seq db |}.

(** ** Errors and the statement monad *)

(** The three store errors of the error taxonomy, and the client-side
    rejection TypeORM raises for an UPDATE with nothing to set. The Prisma
    client's refusal of a number outside the schema's [Int] is not among
    them: the Prisma delegates are embedded on [Int] arguments only. *)
Inductive Error :=
| UniquenessViolation
| ForeignKeyViolation
| NotFound
| UpdateValuesMissing.

Inductive Result (A : Type) :=
| Ok (a : A)
| Err (e : Error).
Arguments Ok {A} a.
Arguments Err {A} e.

(** A call runs against the store and leaves a store behind, whether it
    returns or throws: what a failed call left is stated, not assumed. *)
Definition Tx (A : Type) : Type := DB -> Result A * DB.

Definition ret {A} (a : A) : Tx A := fun db => (Ok a, db).

Definition throw {A} (e : Error) : Tx A := fun db => (Err e, db).

Definition bind {A B} (c : Tx A) (k : A -> Tx B) : Tx B :=
  fun db =>
    match c db with
    | (Ok a, db') => k a db'
    | (Err e, db') => (Err e, db')
    end.

Declare Scope tx_scope.
Delimit Scope tx_scope with tx.
Notation "x <- c ;; k" := (bind c (fun x => k))
  (at level 61, c at next level, right associativity) : tx_scope.
Notation "'await' c ;; k" := (bind c (fun _ => k))
  (at level 61, c at next level, right associativity) : tx_scope.
Open Scope tx_scope.

(** ** The relational engine *)

Module Engine.

Section Tables.
Context {R : Type} (rid : R -> Z).

Definition has_id (id : Z) (r : R) : bool := rid r =? id.

(** SELECT ... WHERE id = ? LIMIT 1 *)
Definition lookup (id : Z) (rows : list R) : option R :=
  find (has_id id) rows.

Definition exists_id (id : Z) (rows : list R) : bool :=
  existsb (has_id id) rows.

(** Rows an UPDATE or DELETE ... WHERE id = ? touches. *)
Definition affected (id : Z) (rows : list R) : nat :=
  List.length (filter (has_id id) rows).

Definition update_where (id : Z) (f : R -> R) (rows : list R) : list R :=
  map (fun r => if has_id id r then f r else r) rows.

Definition delete_where (id : Z) (rows : list R) : list R :=
  filter (fun r => negb (has_id id r)) rows.
End Tables.

(** *** users *)

Definition email_taken (e : string) (us : list User.t) : bool :=
  existsb (fun u => String.eqb (User.email u) e) us.

Definition email_taken_by_other (id : Z) (e : string) (us : list User.t)
  : bool :=
  existsb (fun u => negb (User.id u =? id) && String.eqb (User.email u) e) us.

Definition insertUser (s : Schema) (now : Z) (d : CreateUserDto.t)
  : Tx User.t :=
  fun db =>
    if user_email_unique s && email_taken (CreateUserDto.email d) (users db)
    then (Err UniquenessViolation, db)
    else
      let u := User.mk (users_seq db) (CreateUserDto.name d)
                 (CreateUserDto.email d) now now in
      (Ok u,
       {| users := users db ++ [u]; posts := posts db; likes := likes db;
          users_seq := users_seq db + 1; posts_seq := posts_seq db;
          likes_seq := likes_seq db |}).

(** SET of the present fields, and [updatedAt] to the current time. *)
Definition patchUser (now : Z) (d : UpdateUserDto.t) (u : User.t) : User.t :=
  User.mk (User.id u)
    (match UpdateUserDto.name d with Some n => n | None => User.name u end)
    (match UpdateUserDto.email d with Some e => e | None => User.email u end)
    (User.createdAt u)
    now.

Definition updateUser (s : Schema) (now : Z) (id : Z) (d : UpdateUserDto.t)
  : Tx nat :=
  fun db =>
    if negb (exists_id User.id id (users db)) then (Ok 0%nat, db)
    else if user_email_unique s &&
            match UpdateUserDto.email d with
            | Some e => email_taken_by_other id e (users db)
            | None => false
            end
    then (Err UniquenessViolation, db)
    else (Ok (affected User.id id (users db)),
          set_users db (update_where User.id id (patchUser now d) (users db))).

(** *** posts *)

Definition insertPost (s : Schema) (now : Z) (d : CreatePostDto.t)
  : Tx Post.t :=
  fun db =>
    if negb (exists_id User.id (CreatePostDto.authorId d) (users db))
    then (Err ForeignKeyViolation, db)
    else
      let p := Post.mk (posts_seq db) (CreatePostDto.title d)
                 (CreatePostDto.content d) (CreatePostDto.authorId d)
                 now now in
      (Ok p,
       {| users := users db; posts := posts db ++ [p]; likes := likes db;
          users_seq := users_seq db; posts_seq := posts_seq db + 1;
          likes_seq := likes_seq db |}).

Definition patchPost (now : Z) (d : UpdatePostDto.t) (p : Post.t) : Post.t :=
  Post.mk (Post.id p)
    (match UpdatePostDto.title d with Some x => x | None => Post.title p end)
    (match UpdatePostDto.content d with
     | Some x => x | None => Post.content p end)
    (match UpdatePostDto.authorId d with
     | Some x => x | None => Post.authorId p end)
    (Post.createdAt p)
    now.

Definition updatePost (s : Schema) (now : Z) (id : Z) (d : UpdatePostDto.t)
  : Tx nat :=
  fun db =>
    if negb (exists_id Post.id id (posts db)) then (Ok 0%nat, db)
    else if match UpdatePostDto.authorId d with
            | Some a => negb (exists_id User.id a (users db))
            | None => false
            end
    then (Err ForeignKeyViolation, db)
    else (Ok (affected Post.id id (posts db)),
          set_posts db (update_where Post.id id (patchPost now d) (posts db))).

(** *** likes *)

Definition same_pair (u p : Z) (l : Like.t) : bool :=
  (Like.userId l =? u) && (Like.postId l =? p).

Definition pair_taken (u p : Z) (ls : list Like.t) : bool :=
  existsb (same_pair u p) ls.

Definition pair_taken_by_other (id u p : Z) (ls : list Like.t) : bool :=
  existsb (fun l => negb (Like.id l =? id) && same_pair u p l) ls.

Definition insertLike (s : Schema) (now : Z) (d : CreateLikeDto.t)
  : Tx Like.t :=
  fun db =>
    if like_userId_postId_unique s &&
       pair_taken (CreateLikeDto.userId d) (CreateLikeDto.postId d) (likes db)
    then (Err UniquenessViolation, db)
    else if negb (exists_id User.id (CreateLikeDto.userId d) (users db)
                  && exists_id Post.id (CreateLikeDto.postId d) (posts db))
    then (Err ForeignKeyViolation, db)
    else
      let l := Like.mk (likes_seq db) (CreateLikeDto.userId d)
                 (CreateLikeDto.postId d) now in
      (Ok l,
       {| users := users db; posts := posts db; likes := likes db ++ [l];
          users_seq := users_seq db; posts_seq := posts_seq db;
          likes_seq := likes_seq db + 1 |}).

Definition patchLike (d : UpdateLikeDto.t) (l : Like.t) : Like.t :=
  Like.mk (Like.id l)
    (match UpdateLikeDto.userId d with Some x => x | None => Like.userId l end)
    (match UpdateLikeDto.postId d with Some x => x | None => Like.postId l end)
    (Like.createdAt l).

Definition updateLike (s : Schema) (id : Z) (d : UpdateLikeDto.t) : Tx nat :=
  fun db =>
    match lookup Like.id id (likes db) with
    | None => (Ok 0%nat, db)
    | Some old =>
        let new := patchLike d old in
        if like_userId_postId_unique s && negb (UpdateLikeDto.is_empty d) &&
           pair_taken_by_other id (Like.userId new) (Like.postId new)
             (likes db)
        then (Err UniquenessViolation, db)
        else if negb
                  (match UpdateLikeDto.userId d with
                   | Some u => exists_id User.id u (users db)
                   | None => true
                   end &&
                   match UpdateLikeDto.postId d with
                   | Some p => exists_id Post.id p (posts db)
                   | None => true
                   end)
        then (Err ForeignKeyViolation, db)
        else (Ok (affected Like.id id (likes db)),
              set_likes db (update_where Like.id id (patchLike d) (likes db)))
    end.

Definition deleteLike (id : Z) : Tx nat :=
  fun db =>
    (Ok (affected Like.id id (likes db)),
     set_likes db (delete_where Like.id id (likes db))).

(** *** deletes that other tables reference *)

Definition likes_on_post (id : Z) (l : Like.t) : bool := Like.postId l =? id.
Definition likes_by_user (id : Z) (l : Like.t) : bool := Like.userId l =? id.
Definition posts_by_user (id : Z) (p : Post.t) : bool := Post.authorId p =? id.

(** Likes whose post is one of [ps]. *)
Definition likes_on_posts (ps : list Post.t) (l : Like.t) : bool :=
  exists_id Post.id (Like.postId l) ps.

Definition deletePost (s : Schema) (id : Z) : Tx nat :=
  fun db =>
    if negb (exists_id Post.id id (posts db)) then (Ok 0%nat, db)
    else
      match like_post_onDelete s with
      | NO_ACTION =>
          if existsb (likes_on_post id) (likes db)
          then (Err ForeignKeyViolation, db)
          else (Ok (affected Post.id id (posts db)),
                set_posts db (delete_where Post.id id (posts db)))
      | CASCADE =>
          (Ok (affected Post.id id (posts db)),
           {| users := users db;
              posts := delete_where Post.id id (posts db);
              likes := filter (fun l => negb (likes_on_post id l)) (likes db);
              users_seq := users_seq db; posts_seq := posts_seq db;
              likes_seq := likes_seq db |})
      end.

(** DELETE FROM users WHERE id = ?: the user's likes and posts follow
    their ON DELETE action, and so do the likes on those posts. A
    NO_ACTION reference that is still pointed at aborts the statement. *)
Definition deleteUser (s : Schema) (id : Z) : Tx nat :=
  fun db =>
    if negb (exists_id User.id id (users db)) then (Ok 0%nat, db)
    else
      let own_posts := filter (posts_by_user id) (posts db) in
      let likes1 :=
        match like_user_onDelete s with
        | CASCADE => filter (fun l => negb (likes_by_user id l)) (likes db)
        | NO_ACTION => likes db
        end in
      let blocked_by_like :=
        match like_user_onDelete s with
        | CASCADE => false
        | NO_ACTION => existsb (likes_by_user id) (likes db)
        end in
      let blocked_by_post :=
        match post_author_onDelete s with
        | CASCADE =>
            match like_post_onDelete s with
            | CASCADE => false
            | NO_ACTION => existsb (likes_on_posts own_posts) likes1
            end
        | NO_ACTION => existsb (posts_by_user id) (posts db)
        end in
      if blocked_by_like || blocked_by_post
      then (Err ForeignKeyViolation, db)
      else
        (Ok (affected User.id id (users db)),
         {| users := delete_where User.id id (users db);
            posts := filter (fun p => negb (posts_by_user id p)) (posts db);
            likes :=
              filter (fun l => negb (likes_on_posts own_posts l)) likes1;
            users_seq := users_seq db; posts_seq := posts_seq db;
            likes_seq := likes_seq db |}).

End Engine.

(** ** TypeORM: repositories and services *)

(** [Repository<Like>]. [create] builds an entity instance from the input
    object without touching the store; the instance has no [id], so [save]
    INSERTs it and returns it with the generated columns. [update] and
    [delete] run one statement and resolve to its result whatever the
    number of rows touched; [Like] declares no [@UpdateDateColumn], so an
    [update] whose value set is empty has nothing to SET and is rejected
    before any statement is sent. *)
Module LikeRepository.
Definition create (createLikeDto : CreateLikeDto.t) : CreateLikeDto.t :=
  createLikeDto.
Definition save (now : Z) (like : CreateLikeDto.t) : Tx Like.t :=
  Engine.insertLike typeorm_schema now like.
Definition find : Tx (list Like.t) := fun db => (Ok (likes db), db).
Definition findOne (id : Z) : Tx (option Like.t) :=
  fun db => (Ok (Engine.lookup Like.id id (likes db)), db).
Definition update (id : Z) (partialEntity : UpdateLikeDto.t) : Tx nat :=
  if UpdateLikeDto.is_empty partialEntity then throw UpdateValuesMissing
  else Engine.updateLike typeorm_schema id partialEntity.
Definition delete (id : Z) : Tx nat := Engine.deleteLike id.
End LikeRepository.

(** [LikesService] of the TypeORM side. *)
Module TypeormLikesService.
Definition create (now : Z) (createLikeDto : CreateLikeDto.t) : Tx Like.t :=
  let like := LikeRepository.create createLikeDto in
  LikeRepository.save now like.
Definition findAll : Tx (list Like.t) := LikeRepository.find.
Definition findOne (id : Z) : Tx (option Like.t) := LikeRepository.findOne id.
Definition update (id : Z) (updateLikeDto : UpdateLikeDto.t)
  : Tx (option Like.t) :=
  await LikeRepository.update id updateLikeDto ;;
  findOne id.
Definition remove (id : Z) : Tx unit :=
  await LikeRepository.delete id ;;
  ret tt.
End TypeormLikesService.

(** [Repository<User>]. [User] declares [@UpdateDateColumn()], so every
    [update] has [updatedAt] to SET. *)
Module UserRepository.
Definition create (createUserDto : CreateUserDto.t) : CreateUserDto.t :=
  createUserDto.
Definition save (now : Z) (user : CreateUserDto.t) : Tx User.t :=
  Engine.insertUser typeorm_schema now user.
Definition find : Tx (list User.t) := fun db => (Ok (users db), db).
Definition findOne (id : Z) : Tx (option User.t) :=
  fun db => (Ok (Engine.lookup User.id id (users db)), db).
Definition update (now : Z) (id : Z) (partialEntity : UpdateUserDto.t)
  : Tx nat :=
  Engine.updateUser typeorm_schema now id partialEntity.
Definition delete (id : Z) : Tx nat := Engine.deleteUser typeorm_schema id.
End UserRepository.

(** [UsersService] of the TypeORM side (comparison document, step 4). *)
Module TypeormUsersService.
Definition create (now : Z) (createUserDto : CreateUserDto.t) : Tx User.t :=
  let user := UserRepository.create createUserDto in
  UserRepository.save now user.
Definition findAll : Tx (list User.t) := UserRepository.find.
Definition findOne (id : Z) : Tx (option User.t) := UserRepository.findOne id.
Definition update (now : Z) (id : Z) (updateUserDto : UpdateUserDto.t)
  : Tx (option User.t) :=
  await UserRepository.update now id updateUserDto ;;
  findOne id.
Definition remove (id : Z) : Tx unit :=
  await UserRepository.delete id ;;
  ret tt.
End TypeormUsersService.

(** [Repository<Post>], over the Post entity as the spec declares it (with
    [updatedAt]). *)
Module PostRepository.
Definition create (createPostDto : CreatePostDto.t) : CreatePostDto.t :=
  createPostDto.
Definition save (now : Z) (post : CreatePostDto.t) : Tx Post.t :=
  Engine.insertPost typeorm_schema now post.
Definition find : Tx (list Post.t) := fun db => (Ok (posts db), db).
Definition findOne (id : Z) : Tx (option Post.t) :=
  fun db => (Ok (Engine.lookup Post.id id (posts db)), db).
Definition update (now : Z) (id : Z) (partialEntity : UpdatePostDto.t)
  : Tx nat :=
  Engine.updatePost typeorm_schema now id partialEntity.
Definition delete (id : Z) : Tx nat := Engine.deletePost typeorm_schema id.
End PostRepository.

(** Modelled from the spec: the TypeORM [PostsService] is not among the
    sources. The spec gives the three access components one shared
    pattern, so this is the pattern of [LikesService] and [UsersService]
    over the posts repository. *)
Module TypeormPostsService.
Definition create (now : Z) (createPostDto : CreatePostDto.t) : Tx Post.t :=
  let post := PostRepository.create createPostDto in
  PostRepository.save now post.
Definition findAll : Tx (list Post.t) := PostRepository.find.
Definition findOne (id : Z) : Tx (option Post.t) := PostRepository.findOne id.
Definition update (now : Z) (id : Z) (updatePostDto : UpdatePostDto.t)
  : Tx (option Post.t) :=
  await PostRepository.update now id updatePostDto ;;
  findOne id.
Definition remove (id : Z) : Tx unit :=
  await PostRepository.delete id ;;
  ret tt.
End TypeormPostsService.

(** ** Prisma: model delegates and services *)

(** The Prisma delegates are embedded on the arguments the schema types
    as [Int] ([prisma_int] below: the signed 64-bit range). A number
    outside that range is refused by the client's argument validation
    before any statement is sent; that path is not embedded, and every
    statement below about an identifier or a reference that is not read
    from the store carries [prisma_int] as a hypothesis. *)

(** [this.prisma.like]. [findUnique] resolves to the row or to null.
    [update] and [delete] address exactly one row by its unique [id]: they
    reject with the record-not-found error when there is none, and
    otherwise resolve to the row as written, respectively as it was when
    deleted. *)
Module PrismaLike.
Definition create (now : Z) (data : CreateLikeDto.t) : Tx Like.t :=
  Engine.insertLike prisma_schema now data.
Definition findMany : Tx (list Like.t) := fun db => (Ok (likes db), db).
Definition findUnique (id : Z) : Tx (option Like.t) :=
  fun db => (Ok (Engine.lookup Like.id id (likes db)), db).
Definition update (id : Z) (data : UpdateLikeDto.t) : Tx Like.t :=
  old <- findUnique id ;;
  match old with
  | None => throw NotFound
  | Some _ =>
      await Engine.updateLike prisma_schema id data ;;
      new <- findUnique id ;;
      match new with
      | None => throw NotFound
      | Some l => ret l
      end
  end.
Definition delete (id : Z) : Tx Like.t :=
  old <- findUnique id ;;
  match old with
  | None => throw NotFound
  | Some l =>
      await Engine.deleteLike id ;;
      ret l
  end.
End PrismaLike.

(** [LikesService] of the Prisma side. *)
Module PrismaLikesService.
Definition create (now : Z) (createLikeDto : CreateLikeDto.t) : Tx Like.t :=
  PrismaLike.create now createLikeDto.
Definition findAll : Tx (list Like.t) := PrismaLike.findMany.
Definition findOne (id : Z) : Tx (option Like.t) := PrismaLike.findUnique id.
Definition update (id : Z) (updateLikeDto : UpdateLikeDto.t) : Tx Like.t :=
  PrismaLike.update id updateLikeDto.
Definition remove (id : Z) : Tx Like.t := PrismaLike.delete id.
End PrismaLikesService.

(** [this.prisma.user]. [updatedAt DateTime @updatedAt] is written by
    every update that writes at all: with no field in [data] the client
    sends no UPDATE and resolves to the row as it is. *)
Module PrismaUser.
Definition create (now : Z) (data : CreateUserDto.t) : Tx User.t :=
  Engine.insertUser prisma_schema now data.
Definition findMany : Tx (list User.t) := fun db => (Ok (users db), db).
Definition findUnique (id : Z) : Tx (option User.t) :=
  fun db => (Ok (Engine.lookup User.id id (users db)), db).
Definition update (now : Z) (id : Z) (data : UpdateUserDto.t) : Tx User.t :=
  old <- findUnique id ;;
  match old with
  | None => throw NotFound
  | Some row =>
      if UpdateUserDto.is_empty data then ret row
      else
        await Engine.updateUser prisma_schema now id data ;;
        new <- findUnique id ;;
        match new with
        | None => throw NotFound
        | Some u => ret u
        end
  end.
Definition delete (id : Z) : Tx User.t :=
  old <- findUnique id ;;
  match old with
  | None => throw NotFound
  | Some u =>
      await Engine.deleteUser prisma_schema id ;;
      ret u
  end.
End PrismaUser.

(** [UsersService] of the Prisma side (comparison document, step 4). *)
Module PrismaUsersService.
Definition create (now : Z) (createUserDto : CreateUserDto.t) : Tx User.t :=
  PrismaUser.create now createUserDto.
Definition findAll : Tx (list User.t) := PrismaUser.findMany.
Definition findOne (id : Z) : Tx (option User.t) := PrismaUser.findUnique id.
Definition update (now : Z) (id : Z) (updateUserDto : UpdateUserDto.t)
  : Tx User.t :=
  PrismaUser.update now id updateUserDto.
Definition remove (id : Z) : Tx User.t := PrismaUser.delete id.
End PrismaUsersService.

(** [this.prisma.post]; as for users, an [update] with no field in
    [data] writes nothing. *)
Module PrismaPost.
Definition create (now : Z) (data : CreatePostDto.t) : Tx Post.t :=
  Engine.insertPost prisma_schema now data.
Definition findMany : Tx (list Post.t) := fun db => (Ok (posts db), db).
Definition findUnique (id : Z) : Tx (option Post.t) :=
  fun db => (Ok (Engine.lookup Post.id id (posts db)), db).
Definition update (now : Z) (id : Z) (data : UpdatePostDto.t) : Tx Post.t :=
  old <- findUnique id ;;
  match old with
  | None => throw NotFound
  | Some row =>
      if UpdatePostDto.is_empty data then ret row
      else
        await Engine.updatePost prisma_schema now id data ;;
        new <- findUnique id ;;
        match new with
        | None => throw NotFound
        | Some p => ret p
        end
  end.
Definition delete (id : Z) : Tx Post.t :=
  old <- findUnique id ;;
  match old with
  | None => throw NotFound
  | Some p =>
      await Engine.deletePost prisma_schema id ;;
      ret p
  end.
End PrismaPost.

(** Modelled from the spec: the Prisma [PostsService] is not among the
    sources; it follows the shared pattern of the Prisma [LikesService] and
    [UsersService]. *)
Module PrismaPostsService.
Definition create (now : Z) (createPostDto : CreatePostDto.t) : Tx Post.t :=
  PrismaPost.create now createPostDto.
Definition findAll : Tx (list Post.t) := PrismaPost.findMany.
Definition findOne (id : Z) : Tx (option Post.t) := PrismaPost.findUnique id.
Definition update (now : Z) (id : Z) (updatePostDto : UpdatePostDto.t)
  : Tx Post.t :=
  PrismaPost.update now id updatePostDto.
Definition remove (id : Z) : Tx Post.t := PrismaPost.delete id.
End PrismaPostsService.

(** ** Histories of calls *)

Inductive Impl := TypeORM | Prisma.

Inductive Call :=
| UsersCreate (d : CreateUserDto.t)
| UsersFindAll
| UsersFindOne (id : Z)
| UsersUpdate (id : Z) (d : UpdateUserDto.t)
| UsersRemove (id : Z)
| PostsCreate (d : CreatePostDto.t)
| PostsFindAll
| PostsFindOne (id : Z)
| PostsUpdate (id : Z) (d : UpdatePostDto.t)
| PostsRemove (id : Z)
| LikesCreate (d : CreateLikeDto.t)
| LikesFindAll
| LikesFindOne (id : Z)
| LikesUpdate (id : Z) (d : UpdateLikeDto.t)
| LikesRemove (id : Z).

(** The store a call leaves, whatever it returned or threw. *)
Definition store_after (i : Impl) (now : Z) (c : Call) (db : DB) : DB :=
  match i, c with
  | TypeORM, UsersCreate d => snd (TypeormUsersService.create now d db)
  | TypeORM, UsersFindAll => snd (TypeormUsersService.findAll db)
  | TypeORM, UsersFindOne id => snd (TypeormUsersService.findOne id db)
  | TypeORM, UsersUpdate id d => snd (TypeormUsersService.update now id d db)
  | TypeORM, UsersRemove id => snd (TypeormUsersService.remove id db)
  | TypeORM, PostsCreate d => snd (TypeormPostsService.create now d db)
  | TypeORM, PostsFindAll => snd (TypeormPostsService.findAll db)
  | TypeORM, PostsFindOne id => snd (TypeormPostsService.findOne id db)
  | TypeORM, PostsUpdate id d => snd (TypeormPostsService.update now id d db)
  | TypeORM, PostsRemove id => snd (TypeormPostsService.remove id db)
  | TypeORM, LikesCreate d => snd (TypeormLikesService.create now d db)
  | TypeORM, LikesFindAll => snd (TypeormLikesService.findAll db)
  | TypeORM, LikesFindOne id => snd (TypeormLikesService.findOne id db)
  | TypeORM, LikesUpdate id d => snd (TypeormLikesService.update id d db)
  | TypeORM, LikesRemove id => snd (TypeormLikesService.remove id db)
  | Prisma, UsersCreate d => snd (PrismaUsersService.create now d db)
  | Prisma, UsersFindAll => snd (PrismaUsersService.findAll db)
  | Prisma, UsersFindOne id => snd (PrismaUsersService.findOne id db)
  | Prisma, UsersUpdate id d => snd (PrismaUsersService.update now id d db)
  | Prisma, UsersRemove id => snd (PrismaUsersService.remove id db)
  | Prisma, PostsCreate d => snd (PrismaPostsService.create now d db)
  | Prisma, PostsFindAll => snd (PrismaPostsService.findAll db)
  | Prisma, PostsFindOne id => snd (PrismaPostsService.findOne id db)
  | Prisma, PostsUpdate id d => snd (PrismaPostsService.update now id d db)
  | Prisma, PostsRemove id => snd (PrismaPostsService.remove id db)
  | Prisma, LikesCreate d => snd (PrismaLikesService.create now d db)
  | Prisma, LikesFindAll => snd (PrismaLikesService.findAll db)
  | Prisma, LikesFindOne id => snd (PrismaLikesService.findOne id db)
  | Prisma, LikesUpdate id d => snd (PrismaLikesService.update id d db)
  | Prisma, LikesRemove id => snd (PrismaLikesService.remove id db)
  end.

(** Stores that some history of service calls, on either side, builds from
    the empty store. *)
Inductive reachable : DB -> Prop :=
| reach_empty : reachable empty_db
| reach_call : forall db i now c,
    reachable db -> reachable (store_after i now c db).

(** ** Integrity of a store *)

Definition ids_unique (db : DB) : Prop :=
  NoDup (map User.id (users db)) /\
  NoDup (map Post.id (posts db)) /\
  NoDup (map Like.id (likes db)).

Definition ids_below_seq (db : DB) : Prop :=
  (forall u, In u (users db) -> User.id u < users_seq db) /\
  (forall p, In p (posts db) -> Post.id p < posts_seq db) /\
  (forall l, In l (likes db) -> Like.id l < likes_seq db).

(** Distinct users have distinct emails. *)
Definition emails_unique (db : DB) : Prop :=
  forall u1 u2, In u1 (users db) -> In u2 (users db) ->
    User.id u1 <> User.id u2 -> User.email u1 <> User.email u2.

(** Distinct likes differ in user or in post. *)
Definition pairs_unique (db : DB) : Prop :=
  forall l1 l2, In l1 (likes db) -> In l2 (likes db) ->
    Like.id l1 <> Like.id l2 ->
    ~ (Like.userId l1 = Like.userId l2 /\ Like.postId l1 = Like.postId l2).

(** No row references a row that does not exist. *)
Definition no_orphans (db : DB) : Prop :=
  (forall p, In p (posts db) ->
     exists u, In u (users db) /\ User.id u = Post.authorId p) /\
  (forall l, In l (likes db) ->
     exists u, In u (users db) /\ User.id u = Like.userId l) /\
  (forall l, In l (likes db) ->
     exists p, In p (posts db) /\ Post.id p = Like.postId l).

Record Integrity (db : DB) : Prop := mkIntegrity
  { int_ids : ids_unique db;
    int_seq : ids_below_seq db;
    int_emails : emails_unique db;
    int_pairs : pairs_unique db;
    int_refs : no_orphans db }.

(** * Auxiliary definitions for the statements *)

(** The numbers the Prisma schema's [Int] columns and arguments take:
    signed 64-bit integers. *)
Definition prisma_int (z : Z) : Prop :=
  -9223372036854775808 <= z <= 9223372036854775807.

(** An optional [Int] field of an input object. *)
Definition prisma_int_opt (o : option Z) : Prop :=
  match o with
  | Some z => prisma_int z
  | None => True
  end.

(** A call keeps integrity when the store it leaves has it, whatever the
    call returned or threw. *)
Definition keeps {A} (c : Tx A) : Prop :=
  forall db, Integrity db -> Integrity (snd (c db)).

(** The inputs of the spec's scenario. *)
Definition alice : CreateUserDto.t := CreateUserDto.mk "Alice" "a@x.com".
Definition hi_world : CreatePostDto.t := CreatePostDto.mk "Hi" "World" 1.
Definition like_1_1 : CreateLikeDto.t := CreateLikeDto.mk 1 1.

(** The store after Alice, her post and her like of it were created at
    times 10, 20 and 30. *)
Definition scenario_db : DB :=
  store_after Prisma 30 (LikesCreate like_1_1)
    (store_after TypeORM 20 (PostsCreate hi_world)
       (store_after Prisma 10 (UsersCreate alice) empty_db)).

(** The columns of the composite uniqueness constraint. *)
Definition pair_of (l : Like.t) : Z * Z := (Like.userId l, Like.postId l).

(** Alice and Bob. *)
Definition two_users_db : DB :=
  store_after TypeORM 50 (UsersCreate (CreateUserDto.mk "Bob" "b@x.com"))
    scenario_db.

(** Alice and Bob both like Alice's post. *)
Definition two_likes_db : DB :=
  store_after Prisma 70 (LikesCreate (CreateLikeDto.mk 2 1)) two_users_db.

(** The email an UPDATE of user [id] writes belongs to another user. *)
Definition user_email_conflict (id : Z) (d : UpdateUserDto.t) (db : DB) : bool :=
  match UpdateUserDto.email d with
  | Some e => Engine.email_taken_by_other id e (users db)
  | None => false
  end.


(** What the store answers to an UPDATE of an existing like. *)
Definition like_update_verdict (id : Z) (d : UpdateLikeDto.t) (old : Like.t)
           (db : DB) : option Error :=
  if negb (UpdateLikeDto.is_empty d) &&
     Engine.pair_taken_by_other id
       (Like.userId (Engine.patchLike d old))
       (Like.postId (Engine.patchLike d old)) (likes db)
  then Some UniquenessViolation
  else if negb
            (match UpdateLikeDto.userId d with
             | Some u => Engine.exists_id User.id u (users db)
             | None => true
             end &&
             match UpdateLikeDto.postId d with
             | Some p => Engine.exists_id Post.id p (posts db)
             | None => true
             end)
  then Some ForeignKeyViolation
  else None.



(** * Facts about tables *)

Section TableFacts.
Context {R : Type} (rid : R -> Z).

Lemma lookup_some (id : Z) (rows : list R) (r : R) :
  Engine.lookup rid id rows = Some r -> In r rows /\ rid r = id.
Proof.
  unfold Engine.lookup, Engine.has_id. intros H.
  apply find_some in H. destruct H as [Hin Hid].
  split; [exact Hin | now apply Z.eqb_eq].
Qed.

Lemma lookup_none (id : Z) (rows : list R) :
  Engine.lookup rid id rows = None -> forall r, In r rows -> rid r <> id.
Proof.
  unfold Engine.lookup, Engine.has_id. intros H r Hin.
  apply Z.eqb_neq. exact (find_none _ _ H r Hin).
Qed.

Lemma exists_id_lookup (id : Z) (rows : list R) :
  Engine.exists_id rid id rows =
  match Engine.lookup rid id rows with Some _ => true | None => false end.
Proof.
  unfold Engine.exists_id, Engine.lookup.
  induction rows as [|r rows IH]; simpl; [reflexivity|].
  destruct (Engine.has_id rid id r); simpl; [reflexivity | exact IH].
Qed.

Lemma exists_id_true (id : Z) (rows : list R) :
  Engine.exists_id rid id rows = true <->
  exists r, In r rows /\ rid r = id.
Proof.
  unfold Engine.exists_id, Engine.has_id. rewrite existsb_exists.
  split; intros [r [Hin Hid]]; exists r; split; auto;
    now apply Z.eqb_eq.
Qed.

Lemma exists_id_false (id : Z) (rows : list R) :
  Engine.exists_id rid id rows = false ->
  forall r, In r rows -> rid r <> id.
Proof.
  intros H r Hin Hid.
  assert (Engine.exists_id rid id rows = true) as H'
    by (apply exists_id_true; eauto).
  congruence.
Qed.

(** With a primary key, the row found is the only row of that id. *)
Lemma lookup_unique (id : Z) (rows : list R) (r : R) :
  NoDup (map rid rows) -> In r rows -> rid r = id ->
  Engine.lookup rid id rows = Some r.
Proof.
  unfold Engine.lookup, Engine.has_id.
  induction rows as [|x rows IH]; simpl; intros Hnd Hin Hid; [contradiction|].
  inversion Hnd as [|? ? Hnotin Hnd']; subst.
  destruct Hin as [-> | Hin].
  - now rewrite Z.eqb_refl.
  - destruct (Z.eqb_spec (rid x) (rid r)) as [E|E].
    + exfalso. apply Hnotin. rewrite E. now apply in_map.
    + now apply IH.
Qed.

Lemma affected_zero (id : Z) (rows : list R) :
  Engine.exists_id rid id rows = false -> Engine.affected rid id rows = 0%nat.
Proof.
  unfold Engine.exists_id, Engine.affected.
  induction rows as [|x rows IH]; simpl; [reflexivity|].
  destruct (Engine.has_id rid id x); simpl; [discriminate | exact IH].
Qed.

Lemma delete_where_absent (id : Z) (rows : list R) :
  Engine.exists_id rid id rows = false -> Engine.delete_where rid id rows = rows.
Proof.
  unfold Engine.exists_id, Engine.delete_where.
  induction rows as [|x rows IH]; simpl; [reflexivity|].
  destruct (Engine.has_id rid id x); simpl; [discriminate|].
  intros H. now rewrite IH.
Qed.

Lemma in_delete_where (id : Z) (rows : list R) (r : R) :
  In r (Engine.delete_where rid id rows) <-> In r rows /\ rid r <> id.
Proof.
  unfold Engine.delete_where, Engine.has_id. rewrite filter_In.
  rewrite negb_true_iff, Z.eqb_neq. reflexivity.
Qed.

Lemma lookup_delete_where (id : Z) (rows : list R) :
  Engine.lookup rid id (Engine.delete_where rid id rows) = None.
Proof.
  destruct (Engine.lookup rid id (Engine.delete_where rid id rows)) as [r|] eqn:E;
    [|reflexivity].
  apply lookup_some in E. destruct E as [Hin Hid].
  apply in_delete_where in Hin. tauto.
Qed.

Lemma lookup_delete_where_other (id id' : Z) (rows : list R) :
  id' <> id ->
  Engine.lookup rid id' (Engine.delete_where rid id rows) =
  Engine.lookup rid id' rows.
Proof.
  unfold Engine.lookup, Engine.delete_where, Engine.has_id. intros Hne.
  induction rows as [|x rows IH]; simpl; [reflexivity|].
  destruct (Z.eqb_spec (rid x) id) as [E|E]; simpl.
  - destruct (Z.eqb_spec (rid x) id'); [congruence | exact IH].
  - destruct (rid x =? id'); [reflexivity | exact IH].
Qed.

Lemma NoDup_map_filter (p : R -> bool) (rows : list R) :
  NoDup (map rid rows) -> NoDup (map rid (filter p rows)).
Proof.
  induction rows as [|x rows IH]; simpl; intros Hnd; [constructor|].
  inversion Hnd as [|? ? Hnotin Hnd']; subst.
  destruct (p x); simpl; [|now apply IH].
  constructor; [|now apply IH].
  intros Hin. apply Hnotin.
  apply in_map_iff in Hin. destruct Hin as [y [Hy Hin]].
  apply filter_In in Hin. rewrite <- Hy. apply in_map. tauto.
Qed.

Lemma NoDup_map_snoc (rows : list R) (r : R) :
  NoDup (map rid rows) -> (forall x, In x rows -> rid x <> rid r) ->
  NoDup (map rid (rows ++ [r])).
Proof.
  intros Hnd Hfresh. rewrite map_app. apply NoDup_app; simpl.
  - exact Hnd.
  - constructor; [tauto | constructor].
  - intros a Hin [Ha | []]. apply in_map_iff in Hin.
    destruct Hin as [x [Hx Hin]]. apply (Hfresh x Hin). congruence.
Qed.

Section Update.
Variable f : R -> R.
Hypothesis f_keeps_id : forall r, rid (f r) = rid r.

Lemma map_id_update_where (id : Z) (rows : list R) :
  map rid (Engine.update_where rid id f rows) = map rid rows.
Proof.
  unfold Engine.update_where. rewrite map_map. apply map_ext.
  intros r. destruct (Engine.has_id rid id r); auto.
Qed.

Lemma in_update_where (id : Z) (rows : list R) (r' : R) :
  In r' (Engine.update_where rid id f rows) <->
  exists r, In r rows /\
            ((rid r = id /\ r' = f r) \/ (rid r <> id /\ r' = r)).
Proof.
  unfold Engine.update_where, Engine.has_id. rewrite in_map_iff.
  split; intros [r H]; exists r.
  - destruct H as [H Hin]. split; [exact Hin|].
    destruct (Z.eqb_spec (rid r) id); [left | right]; auto.
  - destruct H as [Hin [[Hid ->] | [Hid ->]]]; split; auto.
    + apply Z.eqb_eq in Hid. now rewrite Hid.
    + apply Z.eqb_neq in Hid. now rewrite Hid.
Qed.

Lemma lookup_update_where (id : Z) (rows : list R) :
  Engine.lookup rid id (Engine.update_where rid id f rows) =
  option_map f (Engine.lookup rid id rows).
Proof.
  unfold Engine.lookup, Engine.update_where, Engine.has_id.
  induction rows as [|x rows IH]; simpl; [reflexivity|].
  destruct (Z.eqb_spec (rid x) id) as [E|E].
  - rewrite f_keeps_id. apply Z.eqb_eq in E. now rewrite E.
  - apply Z.eqb_neq in E. rewrite E. exact IH.
Qed.

Lemma lookup_update_where_other (id id' : Z) (rows : list R) :
  id' <> id ->
  Engine.lookup rid id' (Engine.update_where rid id f rows) =
  Engine.lookup rid id' rows.
Proof.
  unfold Engine.lookup, Engine.update_where, Engine.has_id. intros Hne.
  induction rows as [|x rows IH]; simpl; [reflexivity|].
  destruct (Z.eqb_spec (rid x) id) as [E|E].
  - rewrite f_keeps_id.
    destruct (Z.eqb_spec (rid x) id'); [congruence | exact IH].
  - destruct (rid x =? id'); [reflexivity | exact IH].
Qed.

Lemma exists_id_update_where (id id' : Z) (rows : list R) :
  Engine.exists_id rid id' (Engine.update_where rid id f rows) =
  Engine.exists_id rid id' rows.
Proof.
  unfold Engine.exists_id, Engine.update_where, Engine.has_id.
  induction rows as [|x rows IH]; simpl; [reflexivity|].
  rewrite IH. destruct (rid x =? id); [rewrite f_keeps_id|]; reflexivity.
Qed.
End Update.

End TableFacts.

(** * Facts about the constraint checks *)

Lemma email_taken_true (e : string) (us : list User.t) :
  Engine.email_taken e us = true <->
  exists u, In u us /\ User.email u = e.
Proof.
  unfold Engine.email_taken. rewrite existsb_exists.
  split; intros [u [Hin H]]; exists u; split; auto;
    now apply String.eqb_eq.
Qed.

Lemma email_taken_false (e : string) (us : list User.t) :
  Engine.email_taken e us = false ->
  forall u, In u us -> User.email u <> e.
Proof.
  intros H u Hin He.
  assert (Engine.email_taken e us = true) as H'
    by (apply email_taken_true; eauto).
  congruence.
Qed.

Lemma email_taken_by_other_true (id : Z) (e : string) (us : list User.t) :
  Engine.email_taken_by_other id e us = true <->
  exists u, In u us /\ User.id u <> id /\ User.email u = e.
Proof.
  unfold Engine.email_taken_by_other. rewrite existsb_exists.
  split; intros [u [Hin H]]; exists u; split; auto.
  - apply andb_true_iff in H. destruct H as [H1 H2].
    apply negb_true_iff, Z.eqb_neq in H1. apply String.eqb_eq in H2. tauto.
  - destruct H as [H1 H2]. apply andb_true_iff. split.
    + now apply negb_true_iff, Z.eqb_neq.
    + now apply String.eqb_eq.
Qed.

Lemma email_taken_by_other_false (id : Z) (e : string) (us : list User.t) :
  Engine.email_taken_by_other id e us = false ->
  forall u, In u us -> User.id u <> id -> User.email u <> e.
Proof.
  intros H u Hin Hid He.
  assert (Engine.email_taken_by_other id e us = true) as H'
    by (apply email_taken_by_other_true; eauto).
  congruence.
Qed.

Lemma same_pair_true (u p : Z) (l : Like.t) :
  Engine.same_pair u p l = true <-> Like.userId l = u /\ Like.postId l = p.
Proof.
  unfold Engine.same_pair. rewrite andb_true_iff, !Z.eqb_eq. reflexivity.
Qed.

Lemma pair_taken_true (u p : Z) (ls : list Like.t) :
  Engine.pair_taken u p ls = true <->
  exists l, In l ls /\ Like.userId l = u /\ Like.postId l = p.
Proof.
  unfold Engine.pair_taken. rewrite existsb_exists.
  split; intros [l [Hin H]]; exists l; split; auto;
    now apply same_pair_true.
Qed.

Lemma pair_taken_false (u p : Z) (ls : list Like.t) :
  Engine.pair_taken u p ls = false ->
  forall l, In l ls -> ~ (Like.userId l = u /\ Like.postId l = p).
Proof.
  intros H l Hin Hp.
  assert (Engine.pair_taken u p ls = true) as H'
    by (apply pair_taken_true; eauto).
  congruence.
Qed.

Lemma pair_taken_by_other_true (id u p : Z) (ls : list Like.t) :
  Engine.pair_taken_by_other id u p ls = true <->
  exists l, In l ls /\ Like.id l <> id /\
            Like.userId l = u /\ Like.postId l = p.
Proof.
  unfold Engine.pair_taken_by_other. rewrite existsb_exists.
  split; intros [l [Hin H]]; exists l; split; auto.
  - apply andb_true_iff in H. destruct H as [H1 H2].
    apply negb_true_iff, Z.eqb_neq in H1. apply same_pair_true in H2. tauto.
  - destruct H as [H1 H2]. apply andb_true_iff. split.
    + now apply negb_true_iff, Z.eqb_neq.
    + now apply same_pair_true.
Qed.

Lemma pair_taken_by_other_false (id u p : Z) (ls : list Like.t) :
  Engine.pair_taken_by_other id u p ls = false ->
  forall l, In l ls -> Like.id l <> id ->
    ~ (Like.userId l = u /\ Like.postId l = p).
Proof.
  intros H l Hin Hid Hp.
  assert (Engine.pair_taken_by_other id u p ls = true) as H'
    by (apply pair_taken_by_other_true; eauto).
  congruence.
Qed.

Lemma patchUser_id now d u : User.id (Engine.patchUser now d u) = User.id u.
Proof. reflexivity. Qed.

Lemma patchPost_id now d p : Post.id (Engine.patchPost now d p) = Post.id p.
Proof. reflexivity. Qed.

Lemma patchLike_id d l : Like.id (Engine.patchLike d l) = Like.id l.
Proof. reflexivity. Qed.

Lemma patchLike_empty d l :
  UpdateLikeDto.is_empty d = true -> Engine.patchLike d l = l.
Proof.
  destruct d as [[u|] [p|]]; simpl; try discriminate.
  intros _. now destruct l.
Qed.

(** The two declared schemas are the same schema. *)
Lemma schemas_agree : typeorm_schema = prisma_schema.
Proof. reflexivity. Qed.

(** * The engine keeps the store's integrity *)

Lemma insertUser_integrity now d db :
  Integrity db -> Integrity (snd (Engine.insertUser prisma_schema now d db)).
Proof.
  intros [[Hu [Hp Hl]] [Su [Sp Sl]] He Hpair [Rp [Rlu Rlp]]].
  unfold Engine.insertUser. simpl user_email_unique. cbv iota. simpl andb.
  destruct (Engine.email_taken _ _) eqn:E; simpl;
    [constructor; repeat split; assumption|].
  constructor.
  - repeat split; simpl; auto.
    apply NoDup_map_snoc; [exact Hu|]. intros x Hx. simpl.
    specialize (Su x Hx). lia.
  - repeat split; simpl; auto.
    intros u Hin. apply in_app_iff in Hin. destruct Hin as [Hin|[<-|[]]].
    + specialize (Su u Hin). lia.
    + simpl. lia.
  - intros u1 u2 H1 H2 Hne. simpl in H1, H2.
    apply in_app_iff in H1. apply in_app_iff in H2.
    destruct H1 as [H1|[<-|[]]]; destruct H2 as [H2|[<-|[]]]; simpl in *.
    + now apply He.
    + now apply (email_taken_false _ _ E).
    + intros Heq. symmetry in Heq. revert Heq.
      now apply (email_taken_false _ _ E).
    + congruence.
  - exact Hpair.
  - repeat split; simpl; auto.
    + intros p Hin. destruct (Rp p Hin) as [u [Hu' Hid]].
      exists u. split; [apply in_app_iff; now left | exact Hid].
    + intros l Hin. destruct (Rlu l Hin) as [u [Hu' Hid]].
      exists u. split; [apply in_app_iff; now left | exact Hid].
Qed.

Lemma present_update_where {R : Type} (rid : R -> Z) (f : R -> R)
      (id x : Z) (rows : list R) :
  (forall r, rid (f r) = rid r) ->
  (exists r, In r rows /\ rid r = x) ->
  exists r, In r (Engine.update_where rid id f rows) /\ rid r = x.
Proof.
  intros Hf H. apply exists_id_true. rewrite exists_id_update_where by exact Hf.
  now apply exists_id_true.
Qed.

Lemma updateUser_integrity now id d db :
  Integrity db -> Integrity (snd (Engine.updateUser prisma_schema now id d db)).
Proof.
  intros Hint. pose proof Hint as Hint0.
  destruct Hint as [[Hu [Hp Hl]] [Su [Sp Sl]] He Hpair [Rp [Rlu Rlp]]].
  unfold Engine.updateUser. simpl user_email_unique. cbv iota. simpl andb.
  destruct (Engine.exists_id User.id id (users db)); simpl; [|exact Hint0].
  destruct (match UpdateUserDto.email d with
            | Some e => Engine.email_taken_by_other id e (users db)
            | None => false end) eqn:E; simpl; [exact Hint0|].
  constructor.
  - repeat split; simpl; auto.
    rewrite map_id_update_where; [exact Hu | apply patchUser_id].
  - repeat split; simpl; auto.
    intros u Hin. apply in_update_where in Hin.
    destruct Hin as [r [Hin [[_ ->] | [_ ->]]]]; [simpl|]; now apply Su.
  - intros u1 u2 H1 H2 Hne. simpl in H1, H2.
    apply in_update_where in H1. apply in_update_where in H2.
    destruct H1 as [r1 [H1 [[I1 ->] | [I1 ->]]]];
      destruct H2 as [r2 [H2 [[I2 ->] | [I2 ->]]]]; simpl in *.
    + congruence.
    + destruct (UpdateUserDto.email d) as [e|].
      * intros Heq. symmetry in Heq. revert Heq.
        now apply (email_taken_by_other_false _ _ _ E).
      * apply He; auto.
    + destruct (UpdateUserDto.email d) as [e|].
      * now apply (email_taken_by_other_false _ _ _ E).
      * apply He; auto.
    + now apply He.
  - exact Hpair.
  - repeat split; simpl; auto.
    + intros p Hin. apply present_update_where; [apply patchUser_id|].
      apply (Rp p Hin).
    + intros l Hin. apply present_update_where; [apply patchUser_id|].
      apply (Rlu l Hin).
Qed.

Lemma likes_on_posts_false (ps : list Post.t) (l : Like.t) :
  Engine.likes_on_posts ps l = false ->
  forall p, In p ps -> Post.id p <> Like.postId l.
Proof. unfold Engine.likes_on_posts. apply exists_id_false. Qed.

Lemma deleteUser_integrity id db :
  Integrity db -> Integrity (snd (Engine.deleteUser prisma_schema id db)).
Proof.
  intros Hint. pose proof Hint as Hint0.
  destruct Hint as [[Hu [Hp Hl]] [Su [Sp Sl]] He Hpair [Rp [Rlu Rlp]]].
  unfold Engine.deleteUser. simpl.
  destruct (Engine.exists_id User.id id (users db)); simpl; [|exact Hint0].
  constructor.
  - repeat split; simpl; unfold Engine.delete_where;
      repeat apply NoDup_map_filter; assumption.
  - repeat split; simpl.
    + intros u Hin. apply in_delete_where in Hin. apply Su. tauto.
    + intros p Hin. apply filter_In in Hin. apply Sp. tauto.
    + intros l Hin. apply filter_In in Hin. destruct Hin as [Hin _].
      apply filter_In in Hin. apply Sl. tauto.
  - intros u1 u2 H1 H2. simpl in H1, H2.
    apply in_delete_where in H1. apply in_delete_where in H2.
    apply He; tauto.
  - intros l1 l2 H1 H2. simpl in H1, H2.
    apply filter_In in H1. destruct H1 as [H1 _]. apply filter_In in H1.
    apply filter_In in H2. destruct H2 as [H2 _]. apply filter_In in H2.
    apply Hpair; tauto.
  - repeat split; simpl.
    + intros p Hin. apply filter_In in Hin. destruct Hin as [Hin Hown].
      destruct (Rp p Hin) as [u [Hu' Hid]]. exists u. split; [|exact Hid].
      apply in_delete_where. split; [exact Hu'|].
      unfold Engine.posts_by_user in Hown.
      apply negb_true_iff, Z.eqb_neq in Hown. congruence.
    + intros l Hin. apply filter_In in Hin. destruct Hin as [Hin _].
      apply filter_In in Hin. destruct Hin as [Hin Hown].
      destruct (Rlu l Hin) as [u [Hu' Hid]]. exists u. split; [|exact Hid].
      apply in_delete_where. split; [exact Hu'|].
      unfold Engine.likes_by_user in Hown.
      apply negb_true_iff, Z.eqb_neq in Hown. congruence.
    + intros l Hin. apply filter_In in Hin. destruct Hin as [Hin Hon].
      apply filter_In in Hin. destruct Hin as [Hin _].
      apply negb_true_iff in Hon.
      destruct (Rlp l Hin) as [p [Hp' Hid]]. exists p. split; [|exact Hid].
      apply filter_In. split; [exact Hp'|].
      destruct (Engine.posts_by_user id p) eqn:Hown; [|reflexivity].
      exfalso. apply (likes_on_posts_false _ _ Hon p); [|exact Hid].
      apply filter_In. tauto.
Qed.

Lemma insertPost_integrity now d db :
  Integrity db -> Integrity (snd (Engine.insertPost prisma_schema now d db)).
Proof.
  intros Hint. pose proof Hint as Hint0.
  destruct Hint as [[Hu [Hp Hl]] [Su [Sp Sl]] He Hpair [Rp [Rlu Rlp]]].
  unfold Engine.insertPost.
  destruct (Engine.exists_id User.id _ (users db)) eqn:E; simpl; [|exact Hint0].
  constructor.
  - repeat split; simpl; auto.
    apply NoDup_map_snoc; [exact Hp|]. intros x Hx. simpl.
    specialize (Sp x Hx). lia.
  - repeat split; simpl; auto.
    intros p Hin. apply in_app_iff in Hin. destruct Hin as [Hin|[<-|[]]].
    + specialize (Sp p Hin). lia.
    + simpl. lia.
  - exact He.
  - exact Hpair.
  - repeat split; simpl; auto.
    + intros p Hin. apply in_app_iff in Hin. destruct Hin as [Hin|[<-|[]]].
      * now apply Rp.
      * simpl. now apply exists_id_true.
    + intros l Hin. destruct (Rlp l Hin) as [p [Hp' Hid]].
      exists p. split; [apply in_app_iff; now left | exact Hid].
Qed.

Lemma updatePost_integrity now id d db :
  Integrity db -> Integrity (snd (Engine.updatePost prisma_schema now id d db)).
Proof.
  intros Hint. pose proof Hint as Hint0.
  destruct Hint as [[Hu [Hp Hl]] [Su [Sp Sl]] He Hpair [Rp [Rlu Rlp]]].
  unfold Engine.updatePost.
  destruct (Engine.exists_id Post.id id (posts db)); simpl; [|exact Hint0].
  destruct (match UpdatePostDto.authorId d with
            | Some a => negb (Engine.exists_id User.id a (users db))
            | None => false end) eqn:E; simpl; [exact Hint0|].
  constructor.
  - repeat split; simpl; auto.
    rewrite map_id_update_where; [exact Hp | apply patchPost_id].
  - repeat split; simpl; auto.
    intros p Hin. apply in_update_where in Hin.
    destruct Hin as [r [Hin [[_ ->] | [_ ->]]]]; [simpl|]; now apply Sp.
  - exact He.
  - exact Hpair.
  - repeat split; simpl; auto.
    + intros p Hin. apply in_update_where in Hin.
      destruct Hin as [r [Hin [[_ ->] | [_ ->]]]]; [simpl | now apply Rp].
      destruct (UpdatePostDto.authorId d) as [a|]; [|now apply Rp].
      apply negb_false_iff in E. now apply exists_id_true.
    + intros l Hin. apply present_update_where; [apply patchPost_id|].
      apply (Rlp l Hin).
Qed.

Lemma deletePost_integrity id db :
  Integrity db -> Integrity (snd (Engine.deletePost prisma_schema id db)).
Proof.
  intros Hint. pose proof Hint as Hint0.
  destruct Hint as [[Hu [Hp Hl]] [Su [Sp Sl]] He Hpair [Rp [Rlu Rlp]]].
  unfold Engine.deletePost. simpl.
  destruct (Engine.exists_id Post.id id (posts db)); simpl; [|exact Hint0].
  constructor.
  - repeat split; simpl; unfold Engine.delete_where;
      try apply NoDup_map_filter; assumption.
  - repeat split; simpl; auto.
    + intros p Hin. apply in_delete_where in Hin. apply Sp. tauto.
    + intros l Hin. apply filter_In in Hin. apply Sl. tauto.
  - exact He.
  - intros l1 l2 H1 H2. simpl in H1, H2.
    apply filter_In in H1. apply filter_In in H2. apply Hpair; tauto.
  - repeat split; simpl.
    + intros p Hin. apply in_delete_where in Hin. apply Rp. tauto.
    + intros l Hin. apply filter_In in Hin. apply Rlu. tauto.
    + intros l Hin. apply filter_In in Hin. destruct Hin as [Hin Hon].
      destruct (Rlp l Hin) as [p [Hp' Hid]]. exists p. split; [|exact Hid].
      apply in_delete_where. split; [exact Hp'|].
      unfold Engine.likes_on_post in Hon.
      apply negb_true_iff, Z.eqb_neq in Hon. congruence.
Qed.

Lemma insertLike_integrity now d db :
  Integrity db -> Integrity (snd (Engine.insertLike prisma_schema now d db)).
Proof.
  intros Hint. pose proof Hint as Hint0.
  destruct Hint as [[Hu [Hp Hl]] [Su [Sp Sl]] He Hpair [Rp [Rlu Rlp]]].
  unfold Engine.insertLike. simpl like_userId_postId_unique. simpl andb.
  destruct (Engine.pair_taken _ _ _) eqn:E; simpl; [exact Hint0|].
  destruct (Engine.exists_id User.id _ (users db)) eqn:EU; simpl;
    [|exact Hint0].
  destruct (Engine.exists_id Post.id _ (posts db)) eqn:EP; simpl;
    [|exact Hint0].
  constructor.
  - repeat split; simpl; auto.
    apply NoDup_map_snoc; [exact Hl|]. intros x Hx. simpl.
    specialize (Sl x Hx). lia.
  - repeat split; simpl; auto.
    intros l Hin. apply in_app_iff in Hin. destruct Hin as [Hin|[<-|[]]].
    + specialize (Sl l Hin). lia.
    + simpl. lia.
  - exact He.
  - intros l1 l2 H1 H2 Hne. simpl in H1, H2.
    apply in_app_iff in H1. apply in_app_iff in H2.
    destruct H1 as [H1|[<-|[]]]; destruct H2 as [H2|[<-|[]]]; simpl in *.
    + now apply Hpair.
    + now apply (pair_taken_false _ _ _ E).
    + intros [A B]. apply (pair_taken_false _ _ _ E l2 H2). split; congruence.
    + congruence.
  - repeat split; simpl; auto.
    + intros l Hin. apply in_app_iff in Hin. destruct Hin as [Hin|[<-|[]]].
      * now apply Rlu.
      * simpl. now apply exists_id_true.
    + intros l Hin. apply in_app_iff in Hin. destruct Hin as [Hin|[<-|[]]].
      * now apply Rlp.
      * simpl. now apply exists_id_true.
Qed.

Lemma updateLike_integrity id d db :
  Integrity db -> Integrity (snd (Engine.updateLike prisma_schema id d db)).
Proof.
  intros Hint. pose proof Hint as Hint0.
  destruct Hint as [[Hu [Hp Hl]] [Su [Sp Sl]] He Hpair [Rp [Rlu Rlp]]].
  unfold Engine.updateLike. simpl like_userId_postId_unique. simpl andb.
  destruct (Engine.lookup Like.id id (likes db)) as [old|] eqn:Eold; simpl;
    [|exact Hint0].
  destruct (negb (UpdateLikeDto.is_empty d) && _) eqn:E; simpl; [exact Hint0|].
  destruct (match UpdateLikeDto.userId d with
            | Some u => Engine.exists_id User.id u (users db)
            | None => true end) eqn:EU; simpl; [|exact Hint0].
  destruct (match UpdateLikeDto.postId d with
            | Some p => Engine.exists_id Post.id p (posts db)
            | None => true end) eqn:EP; simpl; [|exact Hint0].
  constructor.
  - repeat split; simpl; auto.
    rewrite map_id_update_where; [exact Hl | apply patchLike_id].
  - repeat split; simpl; auto.
    intros l Hin. apply in_update_where in Hin.
    destruct Hin as [r [Hin [[_ ->] | [_ ->]]]]; [simpl|]; now apply Sl.
  - exact He.
  - apply andb_false_iff in E.
    intros l1 l2 H1 H2 Hne. simpl in H1, H2.
    apply in_update_where in H1. apply in_update_where in H2.
    destruct E as [E|E].
    + apply negb_false_iff in E.
      destruct H1 as [r1 [H1 [[I1 ->] | [I1 ->]]]];
        destruct H2 as [r2 [H2 [[I2 ->] | [I2 ->]]]];
        rewrite ?(patchLike_empty _ _ E) in *; now apply Hpair.
    + assert (forall r, In r (likes db) -> Like.id r = id -> r = old) as Hold.
      { intros r Hr Hid.
        pose proof (lookup_unique Like.id id (likes db) r Hl Hr Hid).
        congruence. }
      destruct H1 as [r1 [H1 [[I1 ->] | [I1 ->]]]];
        destruct H2 as [r2 [H2 [[I2 ->] | [I2 ->]]]].
      * rewrite !patchLike_id in Hne. congruence.
      * rewrite (Hold r1 H1 I1). intros [A B].
        apply (pair_taken_by_other_false _ _ _ _ E r2 H2 I2).
        split; symmetry; assumption.
      * rewrite (Hold r2 H2 I2).
        now apply (pair_taken_by_other_false _ _ _ _ E r1 H1 I1).
      * now apply Hpair.
  - repeat split; simpl; auto.
    + intros l Hin. apply in_update_where in Hin.
      destruct Hin as [r [Hin [[_ ->] | [_ ->]]]]; [simpl | now apply Rlu].
      destruct (UpdateLikeDto.userId d) as [u|]; [|now apply Rlu].
      now apply exists_id_true.
    + intros l Hin. apply in_update_where in Hin.
      destruct Hin as [r [Hin [[_ ->] | [_ ->]]]]; [simpl | now apply Rlp].
      destruct (UpdateLikeDto.postId d) as [p|]; [|now apply Rlp].
      now apply exists_id_true.
Qed.

Lemma deleteLike_integrity id db :
  Integrity db -> Integrity (snd (Engine.deleteLike id db)).
Proof.
  intros [[Hu [Hp Hl]] [Su [Sp Sl]] He Hpair [Rp [Rlu Rlp]]].
  unfold Engine.deleteLike. simpl.
  constructor.
  - repeat split; simpl; auto.
    unfold Engine.delete_where. now apply NoDup_map_filter.
  - repeat split; simpl; auto.
    intros l Hin. apply in_delete_where in Hin. apply Sl. tauto.
  - exact He.
  - intros l1 l2 H1 H2. simpl in H1, H2.
    apply in_delete_where in H1. apply in_delete_where in H2.
    apply Hpair; tauto.
  - repeat split; simpl; auto.
    + intros l Hin. apply in_delete_where in Hin. apply Rlu. tauto.
    + intros l Hin. apply in_delete_where in Hin. apply Rlp. tauto.
Qed.

(** * Every call keeps the store's integrity *)

Lemma keeps_ret {A} (a : A) : keeps (ret a).
Proof. intros db H. exact H. Qed.

Lemma keeps_throw {A} (e : Error) : keeps (@throw A e).
Proof. intros db H. exact H. Qed.

Lemma keeps_bind {A B} (c : Tx A) (k : A -> Tx B) :
  keeps c -> (forall a, keeps (k a)) -> keeps (bind c k).
Proof.
  intros Hc Hk db H. unfold bind. specialize (Hc db H).
  destruct (c db) as [[a|e] db']; simpl in *; [now apply Hk | exact Hc].
Qed.

Lemma keeps_read {A} (q : DB -> A) : keeps (fun db => (Ok (q db), db)).
Proof. intros db H. exact H. Qed.

Lemma keeps_insertUser s now d :
  s = prisma_schema -> keeps (Engine.insertUser s now d).
Proof. intros -> db. apply insertUser_integrity. Qed.

Lemma keeps_updateUser s now id d :
  s = prisma_schema -> keeps (Engine.updateUser s now id d).
Proof. intros -> db. apply updateUser_integrity. Qed.

Lemma keeps_deleteUser s id :
  s = prisma_schema -> keeps (Engine.deleteUser s id).
Proof. intros -> db. apply deleteUser_integrity. Qed.

Lemma keeps_insertPost s now d :
  s = prisma_schema -> keeps (Engine.insertPost s now d).
Proof. intros -> db. apply insertPost_integrity. Qed.

Lemma keeps_updatePost s now id d :
  s = prisma_schema -> keeps (Engine.updatePost s now id d).
Proof. intros -> db. apply updatePost_integrity. Qed.

Lemma keeps_deletePost s id :
  s = prisma_schema -> keeps (Engine.deletePost s id).
Proof. intros -> db. apply deletePost_integrity. Qed.

Lemma keeps_insertLike s now d :
  s = prisma_schema -> keeps (Engine.insertLike s now d).
Proof. intros -> db. apply insertLike_integrity. Qed.

Lemma keeps_updateLike s id d :
  s = prisma_schema -> keeps (Engine.updateLike s id d).
Proof. intros -> db. apply updateLike_integrity. Qed.

Lemma keeps_deleteLike id : keeps (Engine.deleteLike id).
Proof. intros db. apply deleteLike_integrity. Qed.

Create HintDb keeps.
#[local] Hint Resolve keeps_ret keeps_throw keeps_read
  keeps_insertUser keeps_updateUser keeps_deleteUser
  keeps_insertPost keeps_updatePost keeps_deletePost
  keeps_insertLike keeps_updateLike keeps_deleteLike
  schemas_agree eq_refl : keeps.

(** One step through a service body: a bind, a branch on what a read
    returned, or a library call. *)
Ltac keeps_step :=
  match goal with
  | |- keeps (bind _ _) => apply keeps_bind; [|intros ?]
  | |- keeps (match ?x with _ => _ end) => destruct x
  | |- keeps (if ?x then _ else _) => destruct x
  | |- keeps (fun db => (Ok _, db)) => apply keeps_read
  | |- keeps _ => solve [auto with keeps]
  | |- keeps (?f _) => progress unfold f
  end.

Lemma integrity_empty : Integrity empty_db.
Proof.
  constructor; repeat split; simpl; try constructor; try contradiction;
    intros ? ? [].
Qed.

Lemma store_after_integrity i now c db :
  Integrity db -> Integrity (store_after i now c db).
Proof.
  revert db. change (keeps (fun db => (Ok tt, store_after i now c db))).
  assert (forall A (t : Tx A), keeps t ->
            keeps (fun db => (Ok tt, snd (t db)))) as Hsnd
    by (intros A t Ht db H; exact (Ht db H)).
  destruct i, c; unfold store_after; apply Hsnd;
    unfold TypeormUsersService.create, TypeormUsersService.findAll,
      TypeormUsersService.findOne, TypeormUsersService.update,
      TypeormUsersService.remove,
      TypeormPostsService.create, TypeormPostsService.findAll,
      TypeormPostsService.findOne, TypeormPostsService.update,
      TypeormPostsService.remove,
      TypeormLikesService.create, TypeormLikesService.findAll,
      TypeormLikesService.findOne, TypeormLikesService.update,
      TypeormLikesService.remove,
      PrismaUsersService.create, PrismaUsersService.findAll,
      PrismaUsersService.findOne, PrismaUsersService.update,
      PrismaUsersService.remove,
      PrismaPostsService.create, PrismaPostsService.findAll,
      PrismaPostsService.findOne, PrismaPostsService.update,
      PrismaPostsService.remove,
      PrismaLikesService.create, PrismaLikesService.findAll,
      PrismaLikesService.findOne, PrismaLikesService.update,
      PrismaLikesService.remove,
      UserRepository.create, UserRepository.save, UserRepository.find,
      UserRepository.findOne, UserRepository.update, UserRepository.delete,
      PostRepository.create, PostRepository.save, PostRepository.find,
      PostRepository.findOne, PostRepository.update, PostRepository.delete,
      LikeRepository.create, LikeRepository.save, LikeRepository.find,
      LikeRepository.findOne, LikeRepository.update, LikeRepository.delete,
      PrismaUser.create, PrismaUser.findMany, PrismaUser.findUnique,
      PrismaUser.update, PrismaUser.delete,
      PrismaPost.create, PrismaPost.findMany, PrismaPost.findUnique,
      PrismaPost.update, PrismaPost.delete,
      PrismaLike.create, PrismaLike.findMany, PrismaLike.findUnique,
      PrismaLike.update, PrismaLike.delete;
    repeat keeps_step.
Qed.

Lemma reachable_integrity db : reachable db -> Integrity db.
Proof.
  induction 1 as [|db i now c _ IH];
    [exact integrity_empty | now apply store_after_integrity].
Qed.

(** * The scenario of the spec *)

Lemma scenario_db_rows :
  scenario_db =
  {| users := [User.mk 1 "Alice" "a@x.com" 10 10];
     posts := [Post.mk 1 "Hi" "World" 1 20 20];
     likes := [Like.mk 1 1 1 30];
     users_seq := 2; posts_seq := 2; likes_seq := 2 |}.
Proof. reflexivity. Qed.

Lemma scenario_db_reachable : reachable scenario_db.
Proof. unfold scenario_db. repeat apply reach_call. apply reach_empty. Qed.

Lemma two_users_db_reachable : reachable two_users_db.
Proof. apply reach_call, scenario_db_reachable. Qed.

Lemma two_likes_db_rows :
  likes two_likes_db = [Like.mk 1 1 1 30; Like.mk 2 2 1 70].
Proof. reflexivity. Qed.

Lemma two_likes_db_reachable : reachable two_likes_db.
Proof. apply reach_call, two_users_db_reachable. Qed.

Example scenario_second_like_rejected :
  PrismaLikesService.create 40 like_1_1 scenario_db
  = (Err UniquenessViolation, scenario_db) /\
  TypeormLikesService.create 40 like_1_1 scenario_db
  = (Err UniquenessViolation, scenario_db).
Proof. split; reflexivity. Qed.

Example scenario_remove_user :
  let db := snd (PrismaUsersService.remove 1 scenario_db) in
  PrismaPostsService.findOne 1 db = (Ok None, db) /\
  PrismaLikesService.findOne 1 db = (Ok None, db) /\
  posts db = [] /\ likes db = [].
Proof. repeat split; reflexivity. Qed.

(** * Deleting a user *)

(** What DELETE FROM users WHERE id = ? leaves, under the declared ON
    DELETE actions, when the user exists. *)
Lemma deleteUser_existing id db u :
  Engine.lookup User.id id (users db) = Some u ->
  Engine.deleteUser prisma_schema id db =
  (Ok (Engine.affected User.id id (users db)),
   {| users := Engine.delete_where User.id id (users db);
      posts := filter (fun p => negb (Engine.posts_by_user id p)) (posts db);
      likes :=
        filter
          (fun l =>
             negb (Engine.likes_on_posts
                     (filter (Engine.posts_by_user id) (posts db)) l))
          (filter (fun l => negb (Engine.likes_by_user id l)) (likes db));
      users_seq := users_seq db; posts_seq := posts_seq db;
      likes_seq := likes_seq db |}).
Proof.
  intros H. unfold Engine.deleteUser.
  rewrite exists_id_lookup, H. reflexivity.
Qed.

Lemma deleteUser_no_orphans id db :
  no_orphans db -> no_orphans (snd (Engine.deleteUser prisma_schema id db)).
Proof.
  intros Hno. pose proof Hno as [Rp [Rlu Rlp]].
  unfold Engine.deleteUser. simpl.
  destruct (Engine.exists_id User.id id (users db)); simpl; [|exact Hno].
  repeat split; simpl.
  - intros p Hin. apply filter_In in Hin. destruct Hin as [Hin Hown].
    destruct (Rp p Hin) as [u [Hu' Hid]]. exists u. split; [|exact Hid].
    apply in_delete_where. split; [exact Hu'|].
    unfold Engine.posts_by_user in Hown.
    apply negb_true_iff, Z.eqb_neq in Hown. congruence.
  - intros l Hin. apply filter_In in Hin. destruct Hin as [Hin _].
    apply filter_In in Hin. destruct Hin as [Hin Hown].
    destruct (Rlu l Hin) as [u [Hu' Hid]]. exists u. split; [|exact Hid].
    apply in_delete_where. split; [exact Hu'|].
    unfold Engine.likes_by_user in Hown.
    apply negb_true_iff, Z.eqb_neq in Hown. congruence.
  - intros l Hin. apply filter_In in Hin. destruct Hin as [Hin Hon].
    apply filter_In in Hin. destruct Hin as [Hin _].
    apply negb_true_iff in Hon.
    destruct (Rlp l Hin) as [p [Hp' Hid]]. exists p. split; [|exact Hid].
    apply filter_In. split; [exact Hp'|].
    destruct (Engine.posts_by_user id p) eqn:Hown; [|reflexivity].
    exfalso. apply (likes_on_posts_false _ _ Hon p); [|exact Hid].
    apply filter_In. tauto.
Qed.

Lemma deletePost_no_orphans id db :
  no_orphans db -> no_orphans (snd (Engine.deletePost prisma_schema id db)).
Proof.
  intros Hno. pose proof Hno as [Rp [Rlu Rlp]].
  unfold Engine.deletePost. simpl.
  destruct (Engine.exists_id Post.id id (posts db)); simpl; [|exact Hno].
  split; [|split]; simpl.
  - intros p Hin. apply in_delete_where in Hin. apply Rp. tauto.
  - intros l Hin. apply filter_In in Hin. apply Rlu. tauto.
  - intros l Hin. apply filter_In in Hin. destruct Hin as [Hin Hon].
    destruct (Rlp l Hin) as [p [Hp' Hid]]. exists p. split; [|exact Hid].
    apply in_delete_where. split; [exact Hp'|].
    unfold Engine.likes_on_post in Hon.
    apply negb_true_iff, Z.eqb_neq in Hon. congruence.
Qed.

Lemma deleteLike_no_orphans id db :
  no_orphans db -> no_orphans (snd (Engine.deleteLike id db)).
Proof.
  intros [Rp [Rlu Rlp]]. unfold Engine.deleteLike.
  split; [|split]; simpl.
  - exact Rp.
  - intros l Hin. apply in_delete_where in Hin. apply Rlu. tauto.
  - intros l Hin. apply in_delete_where in Hin. apply Rlp. tauto.
Qed.

(** Whatever [remove] is called, on either side, a store without orphans
    stays without orphans. *)
Lemma remove_no_orphans db i now id :
  no_orphans db ->
  no_orphans (store_after i now (UsersRemove id) db) /\
  no_orphans (store_after i now (PostsRemove id) db) /\
  no_orphans (store_after i now (LikesRemove id) db).
Proof.
  intros Hno.
  pose proof (deleteUser_no_orphans id db Hno) as HU.
  pose proof (deletePost_no_orphans id db Hno) as HP.
  pose proof (deleteLike_no_orphans id db Hno) as HL.
  destruct i; unfold store_after;
    unfold TypeormUsersService.remove, UserRepository.delete,
      TypeormPostsService.remove, PostRepository.delete,
      TypeormLikesService.remove, LikeRepository.delete,
      PrismaUsersService.remove, PrismaUser.delete, PrismaUser.findUnique,
      PrismaPostsService.remove, PrismaPost.delete, PrismaPost.findUnique,
      PrismaLikesService.remove, PrismaLike.delete, PrismaLike.findUnique,
      bind; change typeorm_schema with prisma_schema.
  - destruct (Engine.deleteUser prisma_schema id db) as [[?|?] ?];
      destruct (Engine.deletePost prisma_schema id db) as [[?|?] ?];
      destruct (Engine.deleteLike id db) as [[?|?] ?]; simpl in *; auto.
  - destruct (Engine.lookup User.id id (users db));
      destruct (Engine.lookup Post.id id (posts db));
      destruct (Engine.lookup Like.id id (likes db));
      destruct (Engine.deleteUser prisma_schema id db) as [[?|?] ?];
      destruct (Engine.deletePost prisma_schema id db) as [[?|?] ?];
      destruct (Engine.deleteLike id db) as [[?|?] ?]; simpl in *; auto.
Qed.

(** C1. After [remove(id)] on an existing User completes, on either side:
    the call succeeded; no User of that id, no Post with [authorId = id]
    and no Like with [userId = id] exists; no Like on a Post that was
    deleted with the User exists. And after any [remove], of a User, a
    Post or a Like, on either side, a store in which every reference
    pointed at an existing row is again such a store: no orphan is left. *)
Theorem C1_user_remove_cascades (db : DB) (id : Z) :
  (forall u,
      Engine.lookup User.id id (users db) = Some u ->
      exists db',
        TypeormUsersService.remove id db = (Ok tt, db') /\
        PrismaUsersService.remove id db = (Ok u, db') /\
        (forall u', In u' (users db') -> User.id u' <> id) /\
        (forall p, In p (posts db') -> Post.authorId p <> id) /\
        (forall l, In l (likes db') -> Like.userId l <> id) /\
        (forall p l, In p (posts db) -> Post.authorId p = id ->
                     In l (likes db') -> Like.postId l <> Post.id p)) /\
  (no_orphans db ->
   forall i now,
     no_orphans (store_after i now (UsersRemove id) db) /\
     no_orphans (store_after i now (PostsRemove id) db) /\
     no_orphans (store_after i now (LikesRemove id) db)).
Proof.
  split; [|intros Hno i now; now apply remove_no_orphans].
  intros u H. pose proof (deleteUser_existing id db u H) as E.
  eexists. split; [|split].
  - unfold TypeormUsersService.remove, UserRepository.delete, bind.
    change typeorm_schema with prisma_schema. rewrite E. reflexivity.
  - unfold PrismaUsersService.remove, PrismaUser.delete,
      PrismaUser.findUnique, bind.
    rewrite H, E. reflexivity.
  - simpl. split; [|split; [|split]].
    + intros u' Hin. apply in_delete_where in Hin. tauto.
    + intros p Hin. apply filter_In in Hin. destruct Hin as [_ Hown].
      unfold Engine.posts_by_user in Hown.
      now apply negb_true_iff, Z.eqb_neq in Hown.
    + intros l Hin. apply filter_In in Hin. destruct Hin as [Hin _].
      apply filter_In in Hin. destruct Hin as [_ Hown].
      unfold Engine.likes_by_user in Hown.
      now apply negb_true_iff, Z.eqb_neq in Hown.
    + intros p l Hp Hauth Hin. apply filter_In in Hin.
      destruct Hin as [_ Hon]. apply negb_true_iff in Hon.
      intros Heq. apply (likes_on_posts_false _ _ Hon p); [|congruence].
      apply filter_In. split; [exact Hp|].
      unfold Engine.posts_by_user. now apply Z.eqb_eq.
Qed.

Lemma C1_user_remove_cascades_witness :
  (exists db',
      TypeormUsersService.remove 1 two_likes_db = (Ok tt, db') /\
      PrismaUsersService.remove 1 two_likes_db
      = (Ok (User.mk 1 "Alice" "a@x.com" 10 10), db') /\
      (forall u', In u' (users db') -> User.id u' <> 1) /\
      (forall p, In p (posts db') -> Post.authorId p <> 1) /\
      (forall l, In l (likes db') -> Like.userId l <> 1) /\
      (forall p l, In p (posts two_likes_db) -> Post.authorId p = 1 ->
                   In l (likes db') -> Like.postId l <> Post.id p)) /\
  (no_orphans (store_after TypeORM 0 (UsersRemove 1) two_likes_db) /\
   no_orphans (store_after TypeORM 0 (PostsRemove 1) two_likes_db) /\
   no_orphans (store_after TypeORM 0 (LikesRemove 1) two_likes_db)).
Proof.
  split.
  - apply (proj1 (C1_user_remove_cascades two_likes_db 1)). reflexivity.
  - apply (proj2 (C1_user_remove_cascades two_likes_db 1)).
    apply (int_refs _ (reachable_integrity _ two_likes_db_reachable)).
Defined.

(** * Uniqueness constraints *)

Lemma NoDup_map_transfer {A B C} (f : A -> B) (g : A -> C) (l : list A) :
  NoDup (map f l) ->
  (forall x y, In x l -> In y l -> f x <> f y -> g x <> g y) ->
  NoDup (map g l).
Proof.
  induction l as [|a l IH]; simpl; intros Hnd H; [constructor|].
  inversion Hnd as [|? ? Hnotin Hnd']; subst.
  constructor.
  - intros Hin. apply in_map_iff in Hin. destruct Hin as [y [Hy Hin]].
    apply (H a y); auto.
    intros Hf. apply Hnotin. rewrite Hf. now apply in_map.
  - apply IH; [exact Hnd'|]. intros x y Hx Hy. apply H; auto.
Qed.

Lemma same_id_same_row {R} (rid : R -> Z) (rows : list R) (r1 r2 : R) :
  NoDup (map rid rows) -> In r1 rows -> In r2 rows -> rid r1 = rid r2 ->
  r1 = r2.
Proof.
  intros Hnd H1 H2 Hid.
  pose proof (lookup_unique rid (rid r2) rows r1 Hnd H1 Hid) as E1.
  pose proof (lookup_unique rid (rid r2) rows r2 Hnd H2 eq_refl) as E2.
  congruence.
Qed.

Lemma integrity_emails_NoDup db :
  Integrity db -> NoDup (map User.email (users db)).
Proof.
  intros [[Hu _] _ He _ _].
  apply (NoDup_map_transfer User.id User.email); [exact Hu|].
  intros x y Hx Hy. now apply He.
Qed.

Lemma integrity_pairs_NoDup db :
  Integrity db -> NoDup (map pair_of (likes db)).
Proof.
  intros [[_ [_ Hl]] _ _ Hp _].
  apply (NoDup_map_transfer Like.id pair_of); [exact Hl|].
  intros x y Hx Hy Hne Heq. apply (Hp x y Hx Hy Hne).
  unfold pair_of in Heq. now inversion Heq.
Qed.

(** C2. In every store the services can build, no two User rows share an
    email; a [create] whose email an existing User has, and an [update] of
    an existing User to an email another User has, fail with
    UniquenessViolation on either side and leave the store as it was. *)
Theorem C2_email_uniqueness :
  (forall db, reachable db -> NoDup (map User.email (users db))) /\
  (forall db now d u,
      In u (users db) -> User.email u = CreateUserDto.email d ->
      TypeormUsersService.create now d db = (Err UniquenessViolation, db) /\
      PrismaUsersService.create now d db = (Err UniquenessViolation, db)) /\
  (forall db now id d e target other,
      Engine.lookup User.id id (users db) = Some target ->
      UpdateUserDto.email d = Some e ->
      In other (users db) -> User.id other <> id -> User.email other = e ->
      TypeormUsersService.update now id d db = (Err UniquenessViolation, db) /\
      PrismaUsersService.update now id d db = (Err UniquenessViolation, db)).
Proof.
  split; [|split].
  - intros db H. now apply integrity_emails_NoDup, reachable_integrity.
  - intros db now d u Hin He.
    assert (Engine.email_taken (CreateUserDto.email d) (users db) = true) as E
      by (apply email_taken_true; eauto).
    unfold TypeormUsersService.create, UserRepository.save,
      UserRepository.create, PrismaUsersService.create, PrismaUser.create,
      Engine.insertUser.
    simpl. rewrite E. split; reflexivity.
  - intros db now id d e target other Hl Hd Hin Hid He.
    assert (Engine.email_taken_by_other id e (users db) = true) as E
      by (apply email_taken_by_other_true; eauto).
    assert (Engine.updateUser prisma_schema now id d db
            = (Err UniquenessViolation, db)) as EU.
    { unfold Engine.updateUser.
      rewrite exists_id_lookup, Hl, Hd. simpl. now rewrite E. }
    assert (UpdateUserDto.is_empty d = false) as Hne.
    { unfold UpdateUserDto.is_empty. rewrite Hd.
      now destruct (UpdateUserDto.name d). }
    unfold TypeormUsersService.update, UserRepository.update,
      PrismaUsersService.update, PrismaUser.update, PrismaUser.findUnique,
      bind.
    change typeorm_schema with prisma_schema.
    rewrite Hl, Hne. cbv beta iota. rewrite EU. split; reflexivity.
Qed.

Lemma C2_email_uniqueness_witness :
  NoDup (map User.email (users two_users_db)) /\
  (TypeormUsersService.create 60 alice two_users_db
   = (Err UniquenessViolation, two_users_db) /\
   PrismaUsersService.create 60 alice two_users_db
   = (Err UniquenessViolation, two_users_db)) /\
  (TypeormUsersService.update 60 2
     (UpdateUserDto.mk None (Some "a@x.com"%string)) two_users_db
   = (Err UniquenessViolation, two_users_db) /\
   PrismaUsersService.update 60 2
     (UpdateUserDto.mk None (Some "a@x.com"%string)) two_users_db
   = (Err UniquenessViolation, two_users_db)).
Proof.
  split; [|split].
  - apply (proj1 C2_email_uniqueness two_users_db). apply two_users_db_reachable.
  - apply (proj1 (proj2 C2_email_uniqueness) two_users_db 60 alice
             (User.mk 1 "Alice" "a@x.com" 10 10)).
    + simpl. left. reflexivity.
    + reflexivity.
  - apply (proj2 (proj2 C2_email_uniqueness) two_users_db 60 2
             (UpdateUserDto.mk None (Some "a@x.com"%string)) "a@x.com"%string
             (User.mk 2 "Bob" "b@x.com" 50 50)
             (User.mk 1 "Alice" "a@x.com" 10 10)).
    + reflexivity.
    + reflexivity.
    + simpl. left. reflexivity.
    + simpl. lia.
    + reflexivity.
Defined.

(** C3. A [create] of a Like whose (userId, postId) pair an existing Like
    has fails with UniquenessViolation on either side and leaves the store
    as it was; in every store the services can build, no two Like rows
    share their pair. *)
Theorem C3_like_pair_uniqueness :
  (forall db now d l,
      In l (likes db) ->
      Like.userId l = CreateLikeDto.userId d ->
      Like.postId l = CreateLikeDto.postId d ->
      TypeormLikesService.create now d db = (Err UniquenessViolation, db) /\
      PrismaLikesService.create now d db = (Err UniquenessViolation, db)) /\
  (forall db, reachable db -> NoDup (map pair_of (likes db))).
Proof.
  split.
  - intros db now d l Hin Hu Hp.
    assert (Engine.pair_taken (CreateLikeDto.userId d) (CreateLikeDto.postId d)
              (likes db) = true) as E
      by (apply pair_taken_true; eauto).
    unfold TypeormLikesService.create, LikeRepository.save,
      LikeRepository.create, PrismaLikesService.create, PrismaLike.create,
      Engine.insertLike.
    simpl. rewrite E. split; reflexivity.
  - intros db H. now apply integrity_pairs_NoDup, reachable_integrity.
Qed.

Lemma C3_like_pair_uniqueness_witness :
  (TypeormLikesService.create 40 like_1_1 scenario_db
   = (Err UniquenessViolation, scenario_db) /\
   PrismaLikesService.create 40 like_1_1 scenario_db
   = (Err UniquenessViolation, scenario_db)) /\
  NoDup (map pair_of (likes scenario_db)).
Proof.
  split.
  - apply (proj1 C3_like_pair_uniqueness scenario_db 40 like_1_1
             (Like.mk 1 1 1 30)).
    + simpl. left. reflexivity.
    + reflexivity.
    + reflexivity.
  - apply (proj2 C3_like_pair_uniqueness scenario_db).
    apply scenario_db_reachable.
Defined.

Lemma updateLike_conflict db id d old other :
  pairs_unique db ->
  Engine.lookup Like.id id (likes db) = Some old ->
  In other (likes db) -> Like.id other <> id ->
  pair_of other = pair_of (Engine.patchLike d old) ->
  UpdateLikeDto.is_empty d = false /\
  Engine.updateLike prisma_schema id d db = (Err UniquenessViolation, db).
Proof.
  intros Hpairs Hl Hin Hid Hpair.
  assert (UpdateLikeDto.is_empty d = false) as Hne.
  { destruct (UpdateLikeDto.is_empty d) eqn:E; [|reflexivity]. exfalso.
    rewrite (patchLike_empty _ _ E) in Hpair.
    unfold pair_of in Hpair. inversion Hpair as [[Hu Hp]].
    apply lookup_some in Hl. destruct Hl as [Hold Hoid].
    apply (Hpairs other old Hin Hold); [congruence | tauto]. }
  split; [exact Hne|].
  assert (Like.userId other = Like.userId (Engine.patchLike d old)) as Hu
    by exact (f_equal fst Hpair).
  assert (Like.postId other = Like.postId (Engine.patchLike d old)) as Hp
    by exact (f_equal snd Hpair).
  assert (Engine.pair_taken_by_other id
            (Like.userId (Engine.patchLike d old))
            (Like.postId (Engine.patchLike d old)) (likes db) = true) as E
    by (apply pair_taken_by_other_true; eauto).
  unfold Engine.updateLike. rewrite Hl. cbv zeta.
  rewrite Hne, E. reflexivity.
Qed.

(** C9. An [update] that would give an existing Like the (userId, postId)
    pair of another existing Like fails with UniquenessViolation on either
    side and leaves the store as it was; and whatever call is made on a
    store of full integrity, by either side, succeeding or failing, no two
    Like rows share their pair afterwards. *)
Theorem C9_like_update_keeps_pairs_unique :
  (forall db id d old other,
      pairs_unique db ->
      Engine.lookup Like.id id (likes db) = Some old ->
      In other (likes db) -> Like.id other <> id ->
      pair_of other = pair_of (Engine.patchLike d old) ->
      TypeormLikesService.update id d db = (Err UniquenessViolation, db) /\
      PrismaLikesService.update id d db = (Err UniquenessViolation, db)) /\
  (forall db i now c,
      Integrity db ->
      pairs_unique (store_after i now c db) /\
      NoDup (map pair_of (likes (store_after i now c db)))).
Proof.
  split.
  - intros db id d old other Hpairs Hl Hin Hid Hpair.
    destruct (updateLike_conflict db id d old other Hpairs Hl Hin Hid Hpair)
      as [Hne EU].
    unfold TypeormLikesService.update, LikeRepository.update,
      PrismaLikesService.update, PrismaLike.update, PrismaLike.findUnique,
      bind.
    change typeorm_schema with prisma_schema.
    rewrite Hne, Hl, EU. split; reflexivity.
  - intros db i now c Hint.
    pose proof (store_after_integrity i now c db Hint) as Hint'.
    split; [apply (int_pairs _ Hint') | now apply integrity_pairs_NoDup].
Qed.

Lemma C9_like_update_keeps_pairs_unique_witness :
  (TypeormLikesService.update 2 (UpdateLikeDto.mk (Some 1) None) two_likes_db
   = (Err UniquenessViolation, two_likes_db) /\
   PrismaLikesService.update 2 (UpdateLikeDto.mk (Some 1) None) two_likes_db
   = (Err UniquenessViolation, two_likes_db)) /\
  (pairs_unique
     (store_after TypeORM 80
        (LikesUpdate 2 (UpdateLikeDto.mk (Some 1) None)) two_likes_db) /\
   NoDup (map pair_of
            (likes (store_after TypeORM 80
                      (LikesUpdate 2 (UpdateLikeDto.mk (Some 1) None))
                      two_likes_db)))).
Proof.
  split.
  - apply (proj1 C9_like_update_keeps_pairs_unique two_likes_db 2
             (UpdateLikeDto.mk (Some 1) None)
             (Like.mk 2 2 1 70) (Like.mk 1 1 1 30)).
    + apply (int_pairs _ (reachable_integrity _ two_likes_db_reachable)).
    + reflexivity.
    + simpl. left. reflexivity.
    + simpl. lia.
    + reflexivity.
  - apply (proj2 C9_like_update_keeps_pairs_unique).
    apply (reachable_integrity _ two_likes_db_reachable).
Defined.

(** * Calls on an id that identifies no row *)

Lemma set_users_same db : set_users db (users db) = db.
Proof. now destruct db. Qed.

Lemma set_posts_same db : set_posts db (posts db) = db.
Proof. now destruct db. Qed.

Lemma set_likes_same db : set_likes db (likes db) = db.
Proof. now destruct db. Qed.

Lemma updateUser_absent s now id d db :
  Engine.lookup User.id id (users db) = None ->
  Engine.updateUser s now id d db = (Ok 0%nat, db).
Proof.
  intros H. unfold Engine.updateUser. now rewrite exists_id_lookup, H.
Qed.

Lemma updatePost_absent s now id d db :
  Engine.lookup Post.id id (posts db) = None ->
  Engine.updatePost s now id d db = (Ok 0%nat, db).
Proof.
  intros H. unfold Engine.updatePost. now rewrite exists_id_lookup, H.
Qed.

Lemma updateLike_absent s id d db :
  Engine.lookup Like.id id (likes db) = None ->
  Engine.updateLike s id d db = (Ok 0%nat, db).
Proof. intros H. unfold Engine.updateLike. now rewrite H. Qed.

Lemma deleteUser_absent s id db :
  Engine.lookup User.id id (users db) = None ->
  Engine.deleteUser s id db = (Ok 0%nat, db).
Proof.
  intros H. unfold Engine.deleteUser. now rewrite exists_id_lookup, H.
Qed.

Lemma deletePost_absent s id db :
  Engine.lookup Post.id id (posts db) = None ->
  Engine.deletePost s id db = (Ok 0%nat, db).
Proof.
  intros H. unfold Engine.deletePost. now rewrite exists_id_lookup, H.
Qed.

Lemma deleteLike_absent id db :
  Engine.lookup Like.id id (likes db) = None ->
  Engine.deleteLike id db = (Ok 0%nat, db).
Proof.
  intros H. unfold Engine.deleteLike.
  assert (Engine.exists_id Like.id id (likes db) = false) as E
    by now rewrite exists_id_lookup, H.
  now rewrite affected_zero, delete_where_absent, set_likes_same.
Qed.

(** C4, as the claim states it, fails on the TypeORM side: on the empty
    store, [update(1, {userId: 1})] of a Like and [update(1, {name: "X"})]
    of a User resolve to null instead of failing with NotFound. *)
Lemma C4_update_absent_id_counterexample :
  Engine.lookup Like.id 1 (likes empty_db) = None /\
  TypeormLikesService.update 1 (UpdateLikeDto.mk (Some 1) None) empty_db
  = (Ok None, empty_db) /\
  TypeormUsersService.update 5 1 (UpdateUserDto.mk (Some "X"%string) None)
    empty_db
  = (Ok None, empty_db) /\
  ~ (forall db id d,
        Engine.lookup Like.id id (likes db) = None ->
        TypeormLikesService.update id d db = (Err NotFound, db)).
Proof.
  repeat split.
  intros H.
  specialize (H empty_db 1 (UpdateLikeDto.mk (Some 1) None) eq_refl).
  discriminate H.
Qed.

(** C4, amended. On an id that identifies no row, with the id and the
    references of the input in the range of the schema's [Int], [update]
    leaves the store as it was on either side; the Prisma side fails with
    NotFound; the TypeORM side does not: it resolves to an absent result
    (for a Like, when the input has at least one field). *)
Theorem C4_update_absent_id (db : DB) (id : Z) :
  prisma_int id ->
  (Engine.lookup User.id id (users db) = None ->
   forall now d,
     TypeormUsersService.update now id d db = (Ok None, db) /\
     PrismaUsersService.update now id d db = (Err NotFound, db)) /\
  (Engine.lookup Post.id id (posts db) = None ->
   forall now d,
     prisma_int_opt (UpdatePostDto.authorId d) ->
     TypeormPostsService.update now id d db = (Ok None, db) /\
     PrismaPostsService.update now id d db = (Err NotFound, db)) /\
  (Engine.lookup Like.id id (likes db) = None ->
   forall d,
     prisma_int_opt (UpdateLikeDto.userId d) ->
     prisma_int_opt (UpdateLikeDto.postId d) ->
     PrismaLikesService.update id d db = (Err NotFound, db) /\
     snd (TypeormLikesService.update id d db) = db /\
     fst (TypeormLikesService.update id d db) <> Err NotFound /\
     (UpdateLikeDto.is_empty d = false ->
      TypeormLikesService.update id d db = (Ok None, db))).
Proof.
  intros _. split; [|split].
  - intros H now d.
    unfold TypeormUsersService.update, UserRepository.update,
      TypeormUsersService.findOne, UserRepository.findOne,
      PrismaUsersService.update, PrismaUser.update, PrismaUser.findUnique,
      bind.
    rewrite updateUser_absent by exact H. rewrite H. split; reflexivity.
  - intros H now d _.
    unfold TypeormPostsService.update, PostRepository.update,
      TypeormPostsService.findOne, PostRepository.findOne,
      PrismaPostsService.update, PrismaPost.update, PrismaPost.findUnique,
      bind.
    rewrite updatePost_absent by exact H. rewrite H. split; reflexivity.
  - intros H d _ _.
    unfold TypeormLikesService.update, LikeRepository.update,
      TypeormLikesService.findOne, LikeRepository.findOne,
      PrismaLikesService.update, PrismaLike.update, PrismaLike.findUnique,
      bind.
    rewrite H.
    destruct (UpdateLikeDto.is_empty d); simpl;
      rewrite ?updateLike_absent by exact H; rewrite ?H;
      repeat split; try discriminate.
Qed.

Lemma C4_update_absent_id_witness :
  (TypeormUsersService.update 90 7 (UpdateUserDto.mk (Some "X"%string) None)
     scenario_db = (Ok None, scenario_db) /\
   PrismaUsersService.update 90 7 (UpdateUserDto.mk (Some "X"%string) None)
     scenario_db = (Err NotFound, scenario_db)) /\
  (TypeormPostsService.update 90 7 (UpdatePostDto.mk (Some "T"%string) None None)
     scenario_db = (Ok None, scenario_db) /\
   PrismaPostsService.update 90 7 (UpdatePostDto.mk (Some "T"%string) None None)
     scenario_db = (Err NotFound, scenario_db)) /\
  TypeormLikesService.update 7 (UpdateLikeDto.mk (Some 1) None) scenario_db
  = (Ok None, scenario_db).
Proof.
  assert (prisma_int 7) as H7 by (unfold prisma_int; lia).
  assert (prisma_int 1) as H1 by (unfold prisma_int; lia).
  split; [|split].
  - apply (proj1 (C4_update_absent_id scenario_db 7 H7)). reflexivity.
  - apply (proj1 (proj2 (C4_update_absent_id scenario_db 7 H7))).
    + reflexivity.
    + exact I.
  - apply (proj2 (proj2 (C4_update_absent_id scenario_db 7 H7))
             eq_refl (UpdateLikeDto.mk (Some 1) None) H1 I).
    reflexivity.
Defined.

(** * What [remove] returns *)

Lemma deleteUser_succeeds id db :
  exists n db', Engine.deleteUser prisma_schema id db = (Ok n, db').
Proof.
  unfold Engine.deleteUser. simpl.
  destruct (Engine.exists_id User.id id (users db)); simpl; eauto.
Qed.

Lemma deletePost_succeeds id db :
  exists n db', Engine.deletePost prisma_schema id db = (Ok n, db').
Proof.
  unfold Engine.deletePost. simpl.
  destruct (Engine.exists_id Post.id id (posts db)); simpl; eauto.
Qed.

Lemma deletePost_existing id db p :
  Engine.lookup Post.id id (posts db) = Some p ->
  Engine.deletePost prisma_schema id db =
  (Ok (Engine.affected Post.id id (posts db)),
   {| users := users db;
      posts := Engine.delete_where Post.id id (posts db);
      likes := filter (fun l => negb (Engine.likes_on_post id l)) (likes db);
      users_seq := users_seq db; posts_seq := posts_seq db;
      likes_seq := likes_seq db |}).
Proof.
  intros H. unfold Engine.deletePost.
  rewrite exists_id_lookup, H. reflexivity.
Qed.

(** C5, as the claim states it, fails on both sides: on the empty store
    the TypeORM [remove(1)] succeeds instead of failing with NotFound, and
    a successful Prisma [remove(1)] returns the deleted row. *)
Lemma C5_remove_result_counterexample :
  Engine.lookup Like.id 1 (likes empty_db) = None /\
  TypeormLikesService.remove 1 empty_db = (Ok tt, empty_db) /\
  fst (PrismaLikesService.remove 1 scenario_db) = Ok (Like.mk 1 1 1 30) /\
  ~ (forall db id,
        Engine.lookup Like.id id (likes db) = None ->
        TypeormLikesService.remove id db = (Err NotFound, db)).
Proof.
  repeat split.
  intros H. specialize (H empty_db 1 eq_refl). discriminate H.
Qed.

(** C5, amended. For an id in the range of the schema's [Int]: the
    TypeORM [remove] returns no value and never fails with NotFound: on an
    id that identifies no row it succeeds and leaves the store as it was.
    The Prisma [remove] fails with NotFound, leaving the store as it was,
    when the id identifies no row, and on success returns the deleted
    row. *)
Theorem C5_remove_result (db : DB) (id : Z) :
  prisma_int id ->
  ((exists db', TypeormUsersService.remove id db = (Ok tt, db')) /\
   (exists db', TypeormPostsService.remove id db = (Ok tt, db')) /\
   (exists db', TypeormLikesService.remove id db = (Ok tt, db'))) /\
  (Engine.lookup User.id id (users db) = None ->
   TypeormUsersService.remove id db = (Ok tt, db) /\
   PrismaUsersService.remove id db = (Err NotFound, db)) /\
  (Engine.lookup Post.id id (posts db) = None ->
   TypeormPostsService.remove id db = (Ok tt, db) /\
   PrismaPostsService.remove id db = (Err NotFound, db)) /\
  (Engine.lookup Like.id id (likes db) = None ->
   TypeormLikesService.remove id db = (Ok tt, db) /\
   PrismaLikesService.remove id db = (Err NotFound, db)) /\
  (forall u, Engine.lookup User.id id (users db) = Some u ->
             fst (PrismaUsersService.remove id db) = Ok u) /\
  (forall p, Engine.lookup Post.id id (posts db) = Some p ->
             fst (PrismaPostsService.remove id db) = Ok p) /\
  (forall l, Engine.lookup Like.id id (likes db) = Some l ->
             fst (PrismaLikesService.remove id db) = Ok l).
Proof.
  intros _.
  split; [split; [|split] | split; [|split; [|split; [|split; [|split]]]]].
  - destruct (deleteUser_succeeds id db) as [n [db' E]]. exists db'.
    unfold TypeormUsersService.remove, UserRepository.delete, bind.
    change typeorm_schema with prisma_schema. now rewrite E.
  - destruct (deletePost_succeeds id db) as [n [db' E]]. exists db'.
    unfold TypeormPostsService.remove, PostRepository.delete, bind.
    change typeorm_schema with prisma_schema. now rewrite E.
  - eexists. unfold TypeormLikesService.remove, LikeRepository.delete, bind.
    unfold Engine.deleteLike. reflexivity.
  - intros H.
    unfold TypeormUsersService.remove, UserRepository.delete,
      PrismaUsersService.remove, PrismaUser.delete, PrismaUser.findUnique,
      bind.
    rewrite deleteUser_absent by exact H. rewrite H. split; reflexivity.
  - intros H.
    unfold TypeormPostsService.remove, PostRepository.delete,
      PrismaPostsService.remove, PrismaPost.delete, PrismaPost.findUnique,
      bind.
    rewrite deletePost_absent by exact H. rewrite H. split; reflexivity.
  - intros H.
    unfold TypeormLikesService.remove, LikeRepository.delete,
      PrismaLikesService.remove, PrismaLike.delete, PrismaLike.findUnique,
      bind.
    rewrite deleteLike_absent by exact H. rewrite H. split; reflexivity.
  - intros u H.
    unfold PrismaUsersService.remove, PrismaUser.delete,
      PrismaUser.findUnique, bind.
    rewrite H, (deleteUser_existing id db u H). reflexivity.
  - intros p H.
    unfold PrismaPostsService.remove, PrismaPost.delete,
      PrismaPost.findUnique, bind.
    rewrite H, (deletePost_existing id db p H). reflexivity.
  - intros l H.
    unfold PrismaLikesService.remove, PrismaLike.delete,
      PrismaLike.findUnique, bind, Engine.deleteLike.
    rewrite H. reflexivity.
Qed.

Lemma C5_remove_result_witness :
  (TypeormUsersService.remove 7 scenario_db = (Ok tt, scenario_db) /\
   PrismaUsersService.remove 7 scenario_db = (Err NotFound, scenario_db)) /\
  (TypeormPostsService.remove 7 scenario_db = (Ok tt, scenario_db) /\
   PrismaPostsService.remove 7 scenario_db = (Err NotFound, scenario_db)) /\
  (TypeormLikesService.remove 7 scenario_db = (Ok tt, scenario_db) /\
   PrismaLikesService.remove 7 scenario_db = (Err NotFound, scenario_db)) /\
  fst (PrismaUsersService.remove 1 scenario_db)
  = Ok (User.mk 1 "Alice" "a@x.com" 10 10) /\
  fst (PrismaPostsService.remove 1 scenario_db)
  = Ok (Post.mk 1 "Hi" "World" 1 20 20) /\
  fst (PrismaLikesService.remove 1 scenario_db) = Ok (Like.mk 1 1 1 30).
Proof.
  assert (prisma_int 7) as H7 by (unfold prisma_int; lia).
  assert (prisma_int 1) as H1 by (unfold prisma_int; lia).
  pose proof (C5_remove_result scenario_db 7 H7) as [_ [U [P [L _]]]].
  pose proof (C5_remove_result scenario_db 1 H1)
    as [_ [_ [_ [_ [U1 [P1 L1]]]]]].
  split; [|split; [|split; [|split; [|split]]]].
  - apply U. reflexivity.
  - apply P. reflexivity.
  - apply L. reflexivity.
  - apply U1. reflexivity.
  - apply P1. reflexivity.
  - apply L1. reflexivity.
Defined.

(** * Calls on an id that identifies a row *)

Lemma users_update_existing now id d db u :
  Engine.lookup User.id id (users db) = Some u ->
  let db' :=
    set_users db
      (Engine.update_where User.id id (Engine.patchUser now d) (users db)) in
  TypeormUsersService.update now id d db =
  (if user_email_conflict id d db then (Err UniquenessViolation, db)
   else (Ok (Some (Engine.patchUser now d u)), db')) /\
  PrismaUsersService.update now id d db =
  (if UpdateUserDto.is_empty d then (Ok u, db)
   else if user_email_conflict id d db then (Err UniquenessViolation, db)
   else (Ok (Engine.patchUser now d u), db')).
Proof.
  intros H db'.
  assert (Engine.updateUser prisma_schema now id d db =
          if user_email_conflict id d db then (Err UniquenessViolation, db)
          else (Ok (Engine.affected User.id id (users db)), db')) as E.
  { unfold Engine.updateUser. rewrite exists_id_lookup, H. reflexivity. }
  assert (Engine.lookup User.id id (users db')
          = Some (Engine.patchUser now d u)) as H'.
  { unfold db'. simpl. rewrite lookup_update_where by apply patchUser_id.
    now rewrite H. }
  unfold TypeormUsersService.update, UserRepository.update,
    TypeormUsersService.findOne, UserRepository.findOne,
    PrismaUsersService.update, PrismaUser.update, PrismaUser.findUnique, bind.
  change typeorm_schema with prisma_schema. rewrite H.
  destruct (UpdateUserDto.is_empty d); cbv beta iota; rewrite E;
    (destruct (user_email_conflict id d db); [split; reflexivity|]);
    rewrite H'; split; reflexivity.
Qed.


Lemma likes_update_existing id d db l :
  Engine.lookup Like.id id (likes db) = Some l ->
  let db' :=
    set_likes db
      (Engine.update_where Like.id id (Engine.patchLike d) (likes db)) in
  (UpdateLikeDto.is_empty d = false ->
   TypeormLikesService.update id d db =
   match like_update_verdict id d l db with
   | Some e => (Err e, db)
   | None => (Ok (Some (Engine.patchLike d l)), db')
   end) /\
  PrismaLikesService.update id d db =
  match like_update_verdict id d l db with
  | Some e => (Err e, db)
  | None => (Ok (Engine.patchLike d l), db')
  end.
Proof.
  intros H db'.
  assert (Engine.updateLike prisma_schema id d db =
          match like_update_verdict id d l db with
          | Some e => (Err e, db)
          | None => (Ok (Engine.affected Like.id id (likes db)), db')
          end) as E.
  { unfold Engine.updateLike, like_update_verdict. rewrite H. simpl.
    destruct (negb (UpdateLikeDto.is_empty d) && _); [reflexivity|].
    destruct (negb _); reflexivity. }
  assert (Engine.lookup Like.id id (likes db')
          = Some (Engine.patchLike d l)) as H'.
  { unfold db'. simpl. rewrite lookup_update_where by apply patchLike_id.
    now rewrite H. }
  unfold TypeormLikesService.update, LikeRepository.update,
    TypeormLikesService.findOne, LikeRepository.findOne,
    PrismaLikesService.update, PrismaLike.update, PrismaLike.findUnique, bind.
  change typeorm_schema with prisma_schema. rewrite H, E.
  split.
  - intros Hne. rewrite Hne. cbv iota. rewrite E.
    destruct (like_update_verdict id d l db); [reflexivity|].
    now rewrite H'.
  - destruct (like_update_verdict id d l db); [reflexivity|].
    now rewrite H'.
Qed.

(** C7. For an existing User, [update(id, {name: X})] succeeds on either
    side and returns the row with [name] set to X and [updatedAt] to the
    current time, [id], [email] and [createdAt] as they were; posts, likes
    and the other users are untouched. In general, whatever [update]
    returns on success has [id] and [createdAt] as before, every field
    absent from the input as before and every field present in it as
    given, and [updatedAt] at the current time whenever the input has a
    field. With no field in the input, the TypeORM side still refreshes
    [updatedAt], and the Prisma side returns the row as it is and writes
    nothing. *)
Theorem C7_user_update_frame (db : DB) (now id : Z) (u : User.t) :
  Engine.lookup User.id id (users db) = Some u ->
  (forall x,
      exists db',
        TypeormUsersService.update now id (UpdateUserDto.mk (Some x) None) db
        = (Ok (Some (User.mk (User.id u) x (User.email u)
                       (User.createdAt u) now)), db') /\
        PrismaUsersService.update now id (UpdateUserDto.mk (Some x) None) db
        = (Ok (User.mk (User.id u) x (User.email u)
                 (User.createdAt u) now), db') /\
        posts db' = posts db /\ likes db' = likes db /\
        (forall id', id' <> id ->
           Engine.lookup User.id id' (users db')
           = Engine.lookup User.id id' (users db))) /\
  (forall d u' db',
      TypeormUsersService.update now id d db = (Ok (Some u'), db') \/
      PrismaUsersService.update now id d db = (Ok u', db') ->
      User.id u' = User.id u /\
      User.createdAt u' = User.createdAt u /\
      match UpdateUserDto.name d with
      | Some n => User.name u' = n
      | None => User.name u' = User.name u
      end /\
      match UpdateUserDto.email d with
      | Some e => User.email u' = e
      | None => User.email u' = User.email u
      end /\
      (UpdateUserDto.is_empty d = false -> User.updatedAt u' = now)) /\
  (forall d u' db',
      TypeormUsersService.update now id d db = (Ok (Some u'), db') ->
      User.updatedAt u' = now) /\
  PrismaUsersService.update now id (UpdateUserDto.mk None None) db
  = (Ok u, db).
Proof.
  intros H. split; [|split; [|split]].
  - intros x.
    destruct (users_update_existing now id (UpdateUserDto.mk (Some x) None)
                db u H) as [ET EP].
    unfold user_email_conflict in ET, EP. simpl in ET, EP.
    eexists. split; [exact ET | split; [exact EP|]].
    simpl. repeat split.
    intros id' Hne. now apply lookup_update_where_other.
  - intros d u' db' Hres.
    destruct (users_update_existing now id d db u H) as [ET EP].
    destruct Hres as [Hres|Hres].
    + rewrite ET in Hres.
      destruct (user_email_conflict id d db); [discriminate|].
      inversion Hres. simpl.
      repeat split; destruct d as [[n|] [e|]]; reflexivity.
    + rewrite EP in Hres.
      destruct (UpdateUserDto.is_empty d) eqn:Hd.
      * inversion Hres. subst u'.
        destruct d as [[n|] [e|]]; try discriminate Hd.
        simpl. repeat split. discriminate.
      * destruct (user_email_conflict id d db); [discriminate|].
        inversion Hres. simpl.
        repeat split; destruct d as [[n|] [e|]]; reflexivity.
  - intros d u' db' Hres.
    destruct (users_update_existing now id d db u H) as [ET _].
    rewrite ET in Hres.
    destruct (user_email_conflict id d db); [discriminate|].
    inversion Hres. reflexivity.
  - destruct (users_update_existing now id (UpdateUserDto.mk None None)
                db u H) as [_ EP].
    exact EP.
Qed.

Lemma C7_user_update_frame_witness :
  (exists db',
      TypeormUsersService.update 99 1 (UpdateUserDto.mk (Some "X"%string) None)
        scenario_db
      = (Ok (Some (User.mk 1 "X" "a@x.com" 10 99)), db') /\
      PrismaUsersService.update 99 1 (UpdateUserDto.mk (Some "X"%string) None)
        scenario_db
      = (Ok (User.mk 1 "X" "a@x.com" 10 99), db') /\
      posts db' = posts scenario_db /\ likes db' = likes scenario_db /\
      (forall id', id' <> 1 ->
         Engine.lookup User.id id' (users db')
         = Engine.lookup User.id id' (users scenario_db))) /\
  (User.id (User.mk 1 "Alice" "b@x.com" 10 99) = 1 /\
   User.createdAt (User.mk 1 "Alice" "b@x.com" 10 99) = 10 /\
   User.name (User.mk 1 "Alice" "b@x.com" 10 99) = "Alice"%string /\
   User.email (User.mk 1 "Alice" "b@x.com" 10 99) = "b@x.com"%string /\
   (false = false -> User.updatedAt (User.mk 1 "Alice" "b@x.com" 10 99) = 99)) /\
  User.updatedAt (User.mk 1 "Alice" "a@x.com" 10 99) = 99 /\
  PrismaUsersService.update 99 1 (UpdateUserDto.mk None None) scenario_db
  = (Ok (User.mk 1 "Alice" "a@x.com" 10 10), scenario_db).
Proof.
  pose proof (C7_user_update_frame scenario_db 99 1
                (User.mk 1 "Alice" "a@x.com" 10 10) eq_refl)
    as [Hname [Hgen [Htypeorm Hprisma]]].
  split; [|split; [|split]].
  - apply (Hname "X"%string).
  - apply (Hgen (UpdateUserDto.mk None (Some "b@x.com"%string))
             (User.mk 1 "Alice" "b@x.com" 10 99)
             (snd (PrismaUsersService.update 99 1
                     (UpdateUserDto.mk None (Some "b@x.com"%string))
                     scenario_db))).
    right. reflexivity.
  - apply (Htypeorm (UpdateUserDto.mk None None)
             (User.mk 1 "Alice" "a@x.com" 10 99)
             (snd (TypeormUsersService.update 99 1
                     (UpdateUserDto.mk None None) scenario_db))).
    reflexivity.
  - exact Hprisma.
Defined.

(** * Reading one row *)




(** C10. On the Prisma side, [remove(id)] of an existing row returns that
    row with the field values it had, and the row is gone afterwards. *)
Theorem C10_prisma_remove_returns_row (db : DB) (id : Z) :
  (forall l, Engine.lookup Like.id id (likes db) = Some l ->
     exists db',
       PrismaLikesService.remove id db = (Ok l, db') /\
       Engine.lookup Like.id id (likes db') = None) /\
  (forall u, Engine.lookup User.id id (users db) = Some u ->
     exists db',
       PrismaUsersService.remove id db = (Ok u, db') /\
       Engine.lookup User.id id (users db') = None) /\
  (forall p, Engine.lookup Post.id id (posts db) = Some p ->
     exists db',
       PrismaPostsService.remove id db = (Ok p, db') /\
       Engine.lookup Post.id id (posts db') = None).
Proof.
  split; [|split].
  - intros l H. eexists.
    unfold PrismaLikesService.remove, PrismaLike.delete,
      PrismaLike.findUnique, bind, Engine.deleteLike.
    rewrite H. split; [reflexivity|]. simpl. apply lookup_delete_where.
  - intros u H. eexists.
    unfold PrismaUsersService.remove, PrismaUser.delete,
      PrismaUser.findUnique, bind.
    rewrite H, (deleteUser_existing id db u H).
    split; [reflexivity|]. simpl. apply lookup_delete_where.
  - intros p H. eexists.
    unfold PrismaPostsService.remove, PrismaPost.delete,
      PrismaPost.findUnique, bind.
    rewrite H, (deletePost_existing id db p H).
    split; [reflexivity|]. simpl. apply lookup_delete_where.
Qed.

Lemma C10_prisma_remove_returns_row_witness :
  (exists db',
      PrismaLikesService.remove 2 two_likes_db = (Ok (Like.mk 2 2 1 70), db') /\
      Engine.lookup Like.id 2 (likes db') = None) /\
  (exists db',
      PrismaUsersService.remove 2 two_likes_db
      = (Ok (User.mk 2 "Bob" "b@x.com" 50 50), db') /\
      Engine.lookup User.id 2 (users db') = None) /\
  (exists db',
      PrismaPostsService.remove 1 two_likes_db
      = (Ok (Post.mk 1 "Hi" "World" 1 20 20), db') /\
      Engine.lookup Post.id 1 (posts db') = None).
Proof.
  split; [|split].
  - apply (proj1 (C10_prisma_remove_returns_row two_likes_db 2)). reflexivity.
  - apply (proj1 (proj2 (C10_prisma_remove_returns_row two_likes_db 2))).
    reflexivity.
  - apply (proj2 (proj2 (C10_prisma_remove_returns_row two_likes_db 1))).
    reflexivity.
Defined.

(** * The two sides compared *)




(** * Creating rows *)

Section SnocFacts.
Context {R : Type} (rid : R -> Z).

Lemma lookup_snoc_fresh (rows : list R) (r : R) :
  (forall x, In x rows -> rid x <> rid r) ->
  Engine.lookup rid (rid r) (rows ++ [r]) = Some r.
Proof.
  unfold Engine.lookup, Engine.has_id.
  induction rows as [|x rows IH]; simpl; intros Hfresh.
  - now rewrite Z.eqb_refl.
  - destruct (Z.eqb_spec (rid x) (rid r)) as [E|E].
    + exfalso. apply (Hfresh x); auto.
    + apply IH. intros y Hy. apply Hfresh. now right.
Qed.

Lemma lookup_snoc_other (id : Z) (rows : list R) (r : R) :
  id <> rid r ->
  Engine.lookup rid id (rows ++ [r]) = Engine.lookup rid id rows.
Proof.
  unfold Engine.lookup, Engine.has_id. intros Hne.
  induction rows as [|x rows IH]; simpl.
  - destruct (Z.eqb_spec (rid r) id); [congruence | reflexivity].
  - destruct (rid x =? id); [reflexivity | exact IH].
Qed.

Lemma exists_id_present (id : Z) (rows : list R) :
  (exists r, In r rows /\ rid r = id) -> Engine.exists_id rid id rows = true.
Proof. apply exists_id_true. Qed.

Lemma exists_id_missing (id : Z) (rows : list R) :
  (forall r, In r rows -> rid r <> id) -> Engine.exists_id rid id rows = false.
Proof.
  intros H. destruct (Engine.exists_id rid id rows) eqn:E; [|reflexivity].
  apply exists_id_true in E. destruct E as [r [Hin Hid]].
  now destruct (H r Hin).
Qed.
End SnocFacts.

Lemma pair_free (u p : Z) (ls : list Like.t) :
  (forall l, In l ls -> ~ (Like.userId l = u /\ Like.postId l = p)) ->
  Engine.pair_taken u p ls = false.
Proof.
  intros H. destruct (Engine.pair_taken u p ls) eqn:E; [|reflexivity].
  apply pair_taken_true in E. destruct E as [l [Hin Hp]].
  now destruct (H l Hin).
Qed.

Lemma email_free (e : string) (us : list User.t) :
  (forall u, In u us -> User.email u <> e) ->
  Engine.email_taken e us = false.
Proof.
  intros H. destruct (Engine.email_taken e us) eqn:E; [|reflexivity].
  apply email_taken_true in E. destruct E as [u [Hin He]].
  now destruct (H u Hin).
Qed.

(** X1. In a store without orphans, [create] of a Like whose user or whose
    post does not exist, both references being in the range of the
    schema's [Int], fails with ForeignKeyViolation on either side and
    leaves the store as it was. *)
Theorem X1_like_create_missing_reference (db : DB) (now : Z)
        (d : CreateLikeDto.t) :
  prisma_int (CreateLikeDto.userId d) ->
  prisma_int (CreateLikeDto.postId d) ->
  no_orphans db ->
  (forall u, In u (users db) -> User.id u <> CreateLikeDto.userId d) \/
  (forall p, In p (posts db) -> Post.id p <> CreateLikeDto.postId d) ->
  TypeormLikesService.create now d db = (Err ForeignKeyViolation, db) /\
  PrismaLikesService.create now d db = (Err ForeignKeyViolation, db).
Proof.
  intros _ _ [_ [Rlu Rlp]] Hmiss.
  assert (Engine.pair_taken (CreateLikeDto.userId d) (CreateLikeDto.postId d)
            (likes db) = false) as Efree.
  { apply pair_free. intros l Hin [Hu Hp].
    destruct (Rlu l Hin) as [u [Hu1 Hu2]].
    destruct (Rlp l Hin) as [p [Hp1 Hp2]].
    destruct Hmiss as [Hm|Hm]; [apply (Hm u Hu1) | apply (Hm p Hp1)];
      congruence. }
  assert (Engine.exists_id User.id (CreateLikeDto.userId d) (users db)
          && Engine.exists_id Post.id (CreateLikeDto.postId d) (posts db)
          = false) as Eref.
  { apply andb_false_iff.
    destruct Hmiss as [Hm|Hm]; [left | right]; now apply exists_id_missing. }
  unfold TypeormLikesService.create, LikeRepository.save,
    LikeRepository.create, PrismaLikesService.create, PrismaLike.create,
    Engine.insertLike.
  simpl. rewrite Efree, Eref. split; reflexivity.
Qed.

Lemma X1_like_create_missing_reference_witness :
  TypeormLikesService.create 90 (CreateLikeDto.mk 7 1) two_likes_db
  = (Err ForeignKeyViolation, two_likes_db) /\
  PrismaLikesService.create 90 (CreateLikeDto.mk 7 1) two_likes_db
  = (Err ForeignKeyViolation, two_likes_db).
Proof.
  apply (X1_like_create_missing_reference two_likes_db 90
           (CreateLikeDto.mk 7 1)).
  - unfold prisma_int. simpl. lia.
  - unfold prisma_int. simpl. lia.
  - apply (int_refs _ (reachable_integrity _ two_likes_db_reachable)).
  - left. simpl. intros u [<-|[<-|[]]]; simpl; lia.
Defined.

(** X2. When no Like has the pair yet and the user and the post exist,
    [create] of a Like succeeds on either side: the row returned carries
    the next identifier of the sequence, the two references as given and
    [createdAt] at the current time; it is appended to what [findAll]
    lists, [findOne] of its id finds it, its id is above every id in use,
    and users and posts are untouched. *)
Theorem X2_like_create_success (db : DB) (now : Z) (d : CreateLikeDto.t) :
  ids_below_seq db ->
  (forall l, In l (likes db) ->
     ~ (Like.userId l = CreateLikeDto.userId d /\
        Like.postId l = CreateLikeDto.postId d)) ->
  (exists u, In u (users db) /\ User.id u = CreateLikeDto.userId d) ->
  (exists p, In p (posts db) /\ Post.id p = CreateLikeDto.postId d) ->
  exists l db',
    l = Like.mk (likes_seq db) (CreateLikeDto.userId d)
          (CreateLikeDto.postId d) now /\
    TypeormLikesService.create now d db = (Ok l, db') /\
    PrismaLikesService.create now d db = (Ok l, db') /\
    TypeormLikesService.findAll db' = (Ok (likes db ++ [l]), db') /\
    PrismaLikesService.findAll db' = (Ok (likes db ++ [l]), db') /\
    TypeormLikesService.findOne (Like.id l) db' = (Ok (Some l), db') /\
    PrismaLikesService.findOne (Like.id l) db' = (Ok (Some l), db') /\
    (forall l0, In l0 (likes db) -> Like.id l0 < Like.id l) /\
    users db' = users db /\ posts db' = posts db /\
    likes_seq db' = likes_seq db + 1.
Proof.
  intros [_ [_ Sl]] Hfree Hu Hp.
  pose proof (pair_free _ _ _ Hfree) as Efree.
  pose proof (exists_id_present User.id _ _ Hu) as EU.
  pose proof (exists_id_present Post.id _ _ Hp) as EP.
  eexists. eexists. split; [reflexivity|].
  unfold TypeormLikesService.create, LikeRepository.save,
    LikeRepository.create, PrismaLikesService.create, PrismaLike.create,
    Engine.insertLike.
  simpl. rewrite Efree, EU, EP. simpl.
  split; [reflexivity|]. split; [reflexivity|].
  split; [reflexivity|]. split; [reflexivity|].
  unfold TypeormLikesService.findOne, LikeRepository.findOne,
    PrismaLikesService.findOne, PrismaLike.findUnique. simpl.
  assert (Engine.lookup Like.id (likes_seq db)
            (likes db ++
             [Like.mk (likes_seq db) (CreateLikeDto.userId d)
                (CreateLikeDto.postId d) now])
          = Some (Like.mk (likes_seq db) (CreateLikeDto.userId d)
                    (CreateLikeDto.postId d) now)) as EL.
  { apply (lookup_snoc_fresh Like.id (likes db)
             (Like.mk (likes_seq db) (CreateLikeDto.userId d)
                (CreateLikeDto.postId d) now)).
    intros x Hx. simpl. specialize (Sl x Hx). lia. }
  rewrite EL.
  split; [reflexivity|]. split; [reflexivity|].
  split; [exact Sl|]. repeat split.
Qed.

Lemma X2_like_create_success_witness :
  exists l db',
    l = Like.mk 2 2 1 90 /\
    TypeormLikesService.create 90 (CreateLikeDto.mk 2 1) two_users_db
    = (Ok l, db') /\
    PrismaLikesService.create 90 (CreateLikeDto.mk 2 1) two_users_db
    = (Ok l, db') /\
    TypeormLikesService.findAll db'
    = (Ok (likes two_users_db ++ [l]), db') /\
    PrismaLikesService.findAll db'
    = (Ok (likes two_users_db ++ [l]), db') /\
    TypeormLikesService.findOne (Like.id l) db' = (Ok (Some l), db') /\
    PrismaLikesService.findOne (Like.id l) db' = (Ok (Some l), db') /\
    (forall l0, In l0 (likes two_users_db) -> Like.id l0 < Like.id l) /\
    users db' = users two_users_db /\ posts db' = posts two_users_db /\
    likes_seq db' = likes_seq two_users_db + 1.
Proof.
  apply (X2_like_create_success two_users_db 90 (CreateLikeDto.mk 2 1)).
  - apply (int_seq _ (reachable_integrity _ two_users_db_reachable)).
  - simpl. intros l [<-|[]]. simpl. lia.
  - exists (User.mk 2 "Bob" "b@x.com" 50 50). simpl. split; [|reflexivity].
    right. left. reflexivity.
  - exists (Post.mk 1 "Hi" "World" 1 20 20). simpl. split; [|reflexivity].
    left. reflexivity.
Defined.

(** X3. When no User has the email yet, [create] of a User succeeds on
    either side: the row returned carries the next identifier of the
    sequence, the name and email as given and both timestamps at the
    current time; it is appended to what [findAll] lists, [findOne] of its
    id finds it, its id is above every id in use, and posts and likes are
    untouched. *)
Theorem X3_user_create_success (db : DB) (now : Z) (d : CreateUserDto.t) :
  ids_below_seq db ->
  (forall u, In u (users db) -> User.email u <> CreateUserDto.email d) ->
  exists u db',
    u = User.mk (users_seq db) (CreateUserDto.name d) (CreateUserDto.email d)
          now now /\
    TypeormUsersService.create now d db = (Ok u, db') /\
    PrismaUsersService.create now d db = (Ok u, db') /\
    TypeormUsersService.findAll db' = (Ok (users db ++ [u]), db') /\
    PrismaUsersService.findAll db' = (Ok (users db ++ [u]), db') /\
    TypeormUsersService.findOne (User.id u) db' = (Ok (Some u), db') /\
    PrismaUsersService.findOne (User.id u) db' = (Ok (Some u), db') /\
    (forall u0, In u0 (users db) -> User.id u0 < User.id u) /\
    posts db' = posts db /\ likes db' = likes db /\
    users_seq db' = users_seq db + 1.
Proof.
  intros [Su _] Hfree.
  pose proof (email_free _ _ Hfree) as Efree.
  eexists. eexists. split; [reflexivity|].
  unfold TypeormUsersService.create, UserRepository.save,
    UserRepository.create, PrismaUsersService.create, PrismaUser.create,
    Engine.insertUser.
  simpl. rewrite Efree. simpl.
  split; [reflexivity|]. split; [reflexivity|].
  split; [reflexivity|]. split; [reflexivity|].
  unfold TypeormUsersService.findOne, UserRepository.findOne,
    PrismaUsersService.findOne, PrismaUser.findUnique. simpl.
  assert (Engine.lookup User.id (users_seq db)
            (users db ++
             [User.mk (users_seq db) (CreateUserDto.name d)
                (CreateUserDto.email d) now now])
          = Some (User.mk (users_seq db) (CreateUserDto.name d)
                    (CreateUserDto.email d) now now)) as EL.
  { apply (lookup_snoc_fresh User.id (users db)
             (User.mk (users_seq db) (CreateUserDto.name d)
                (CreateUserDto.email d) now now)).
    intros x Hx. simpl. specialize (Su x Hx). lia. }
  rewrite EL.
  split; [reflexivity|]. split; [reflexivity|].
  split; [exact Su|]. repeat split.
Qed.

Lemma X3_user_create_success_witness :
  exists u db',
    u = User.mk 3 "Carol" "c@x.com" 90 90 /\
    TypeormUsersService.create 90 (CreateUserDto.mk "Carol" "c@x.com")
      two_likes_db = (Ok u, db') /\
    PrismaUsersService.create 90 (CreateUserDto.mk "Carol" "c@x.com")
      two_likes_db = (Ok u, db') /\
    TypeormUsersService.findAll db' = (Ok (users two_likes_db ++ [u]), db') /\
    PrismaUsersService.findAll db' = (Ok (users two_likes_db ++ [u]), db') /\
    TypeormUsersService.findOne (User.id u) db' = (Ok (Some u), db') /\
    PrismaUsersService.findOne (User.id u) db' = (Ok (Some u), db') /\
    (forall u0, In u0 (users two_likes_db) -> User.id u0 < User.id u) /\
    posts db' = posts two_likes_db /\ likes db' = likes two_likes_db /\
    users_seq db' = users_seq two_likes_db + 1.
Proof.
  apply (X3_user_create_success two_likes_db 90
           (CreateUserDto.mk "Carol" "c@x.com")).
  - apply (int_seq _ (reachable_integrity _ two_likes_db_reachable)).
  - simpl. intros u [<-|[<-|[]]]; simpl; discriminate.
Defined.

(** * Failing calls *)

(** X4. A call of the Likes or Users service that fails, on either side
    and with whatever error, leaves the store exactly as it was. *)
Theorem X4_failed_call_writes_nothing (db : DB) (now id : Z) (e : Error) :
  (forall d, fst (TypeormLikesService.create now d db) = Err e ->
             snd (TypeormLikesService.create now d db) = db) /\
  (forall d, fst (PrismaLikesService.create now d db) = Err e ->
             snd (PrismaLikesService.create now d db) = db) /\
  (forall d, fst (TypeormLikesService.update id d db) = Err e ->
             snd (TypeormLikesService.update id d db) = db) /\
  (forall d, fst (PrismaLikesService.update id d db) = Err e ->
             snd (PrismaLikesService.update id d db) = db) /\
  (fst (TypeormLikesService.remove id db) = Err e ->
   snd (TypeormLikesService.remove id db) = db) /\
  (fst (PrismaLikesService.remove id db) = Err e ->
   snd (PrismaLikesService.remove id db) = db) /\
  (forall d, fst (TypeormUsersService.create now d db) = Err e ->
             snd (TypeormUsersService.create now d db) = db) /\
  (forall d, fst (PrismaUsersService.create now d db) = Err e ->
             snd (PrismaUsersService.create now d db) = db) /\
  (forall d, fst (TypeormUsersService.update now id d db) = Err e ->
             snd (TypeormUsersService.update now id d db) = db) /\
  (forall d, fst (PrismaUsersService.update now id d db) = Err e ->
             snd (PrismaUsersService.update now id d db) = db) /\
  (fst (TypeormUsersService.remove id db) = Err e ->
   snd (TypeormUsersService.remove id db) = db) /\
  (fst (PrismaUsersService.remove id db) = Err e ->
   snd (PrismaUsersService.remove id db) = db).
Proof.
  assert (forall d, fst (Engine.insertLike prisma_schema now d db) = Err e ->
                    snd (Engine.insertLike prisma_schema now d db) = db) as IL.
  { intros d. unfold Engine.insertLike. simpl.
    destruct (Engine.pair_taken _ _ _); simpl; [reflexivity|].
    destruct (negb _); simpl; [reflexivity | discriminate]. }
  assert (forall d, fst (Engine.insertUser prisma_schema now d db) = Err e ->
                    snd (Engine.insertUser prisma_schema now d db) = db) as IU.
  { intros d. unfold Engine.insertUser. simpl.
    destruct (Engine.email_taken _ _); simpl; [reflexivity | discriminate]. }
  repeat match goal with |- _ /\ _ => split end.
  - exact IL.
  - exact IL.
  - intros d. destruct (Engine.lookup Like.id id (likes db)) as [l|] eqn:H.
    + destruct (UpdateLikeDto.is_empty d) eqn:Hd.
      * unfold TypeormLikesService.update, LikeRepository.update, bind.
        rewrite Hd. reflexivity.
      * destruct (likes_update_existing id d db l H) as [ET _].
        rewrite (ET Hd).
        destruct (like_update_verdict id d l db); [reflexivity | discriminate].
    + unfold TypeormLikesService.update, LikeRepository.update,
        TypeormLikesService.findOne, LikeRepository.findOne, bind.
      destruct (UpdateLikeDto.is_empty d); [reflexivity|].
      rewrite updateLike_absent by exact H. discriminate.
  - intros d. destruct (Engine.lookup Like.id id (likes db)) as [l|] eqn:H.
    + destruct (likes_update_existing id d db l H) as [_ EP]. rewrite EP.
      destruct (like_update_verdict id d l db); [reflexivity | discriminate].
    + unfold PrismaLikesService.update, PrismaLike.update,
        PrismaLike.findUnique, bind.
      rewrite H. reflexivity.
  - unfold TypeormLikesService.remove, LikeRepository.delete, bind,
      Engine.deleteLike. discriminate.
  - unfold PrismaLikesService.remove, PrismaLike.delete,
      PrismaLike.findUnique, bind, Engine.deleteLike.
    destruct (Engine.lookup Like.id id (likes db)); [discriminate|reflexivity].
  - exact IU.
  - exact IU.
  - intros d. destruct (Engine.lookup User.id id (users db)) as [u|] eqn:H.
    + destruct (users_update_existing now id d db u H) as [ET _]. rewrite ET.
      destruct (user_email_conflict id d db); [reflexivity | discriminate].
    + unfold TypeormUsersService.update, UserRepository.update,
        TypeormUsersService.findOne, UserRepository.findOne, bind.
      rewrite updateUser_absent by exact H. discriminate.
  - intros d. destruct (Engine.lookup User.id id (users db)) as [u|] eqn:H.
    + destruct (users_update_existing now id d db u H) as [_ EP]. rewrite EP.
      destruct (UpdateUserDto.is_empty d); [discriminate|].
      destruct (user_email_conflict id d db); [reflexivity | discriminate].
    + unfold PrismaUsersService.update, PrismaUser.update,
        PrismaUser.findUnique, bind.
      rewrite H. reflexivity.
  - unfold TypeormUsersService.remove, UserRepository.delete, bind.
    change typeorm_schema with prisma_schema.
    destruct (deleteUser_succeeds id db) as [n [db' E]]. rewrite E.
    discriminate.
  - unfold PrismaUsersService.remove, PrismaUser.delete,
      PrismaUser.findUnique, bind.
    destruct (Engine.lookup User.id id (users db)) as [u|] eqn:H;
      [|reflexivity].
    rewrite (deleteUser_existing id db u H). discriminate.
Qed.

Lemma X4_failed_call_writes_nothing_witness :
  snd (PrismaLikesService.update 2 (UpdateLikeDto.mk (Some 1) None)
         two_likes_db) = two_likes_db /\
  snd (TypeormUsersService.create 90 alice two_likes_db) = two_likes_db /\
  snd (PrismaUsersService.remove 7 two_likes_db) = two_likes_db.
Proof.
  pose proof (X4_failed_call_writes_nothing two_likes_db 0 2
                UniquenessViolation) as [_ [_ [_ [PLU _]]]].
  pose proof (X4_failed_call_writes_nothing two_likes_db 90 0
                UniquenessViolation) as [_ [_ [_ [_ [_ [_ [TUC _]]]]]]].
  pose proof (X4_failed_call_writes_nothing two_likes_db 0 7 NotFound)
    as [_ [_ [_ [_ [_ [_ [_ [_ [_ [_ [_ PUR]]]]]]]]]]].
  split; [|split].
  - apply PLU. reflexivity.
  - apply TUC. reflexivity.
  - apply PUR. reflexivity.
Defined.

(** * Updating a like *)

Lemma pair_free_of_others (id u p : Z) (ls : list Like.t) :
  (forall l, In l ls -> Like.id l <> id ->
     ~ (Like.userId l = u /\ Like.postId l = p)) ->
  Engine.pair_taken_by_other id u p ls = false.
Proof.
  intros H. destruct (Engine.pair_taken_by_other id u p ls) eqn:E;
    [|reflexivity].
  apply pair_taken_by_other_true in E. destruct E as [l [Hin [Hid Hp]]].
  now destruct (H l Hin Hid).
Qed.

(** What a successful [update] of an existing like returned and left. *)
Lemma likes_update_success id d db l l' db' :
  Engine.lookup Like.id id (likes db) = Some l ->
  TypeormLikesService.update id d db = (Ok (Some l'), db') \/
  PrismaLikesService.update id d db = (Ok l', db') ->
  l' = Engine.patchLike d l /\
  db' = set_likes db
          (Engine.update_where Like.id id (Engine.patchLike d) (likes db)).
Proof.
  intros H Hres. destruct (likes_update_existing id d db l H) as [ET EP].
  destruct Hres as [Hres|Hres].
  - destruct (UpdateLikeDto.is_empty d) eqn:Hd.
    + unfold TypeormLikesService.update, LikeRepository.update, bind in Hres.
      rewrite Hd in Hres. discriminate Hres.
    + rewrite (ET eq_refl) in Hres.
      destruct (like_update_verdict id d l db); [discriminate|].
      inversion Hres. split; reflexivity.
  - rewrite EP in Hres.
    destruct (like_update_verdict id d l db); [discriminate|].
    inversion Hres. split; reflexivity.
Qed.

(** X5. Whatever a successful [update] of an existing Like returns, on
    either side, has the [id] and [createdAt] the row had, every reference
    present in the input as given and every absent one as before; users,
    posts, the other likes and the order of the likes are untouched. *)
Theorem X5_like_update_frame (db : DB) (id : Z) (l : Like.t) :
  Engine.lookup Like.id id (likes db) = Some l ->
  forall d l' db',
    TypeormLikesService.update id d db = (Ok (Some l'), db') \/
    PrismaLikesService.update id d db = (Ok l', db') ->
    Like.id l' = Like.id l /\
    Like.createdAt l' = Like.createdAt l /\
    match UpdateLikeDto.userId d with
    | Some x => Like.userId l' = x
    | None => Like.userId l' = Like.userId l
    end /\
    match UpdateLikeDto.postId d with
    | Some x => Like.postId l' = x
    | None => Like.postId l' = Like.postId l
    end /\
    users db' = users db /\ posts db' = posts db /\
    map Like.id (likes db') = map Like.id (likes db) /\
    (forall id', id' <> id ->
       Engine.lookup Like.id id' (likes db')
       = Engine.lookup Like.id id' (likes db)).
Proof.
  intros H d l' db' Hres.
  destruct (likes_update_success id d db l l' db' H Hres) as [-> ->].
  simpl. split; [reflexivity|]. split; [reflexivity|].
  split; [destruct (UpdateLikeDto.userId d); reflexivity|].
  split; [destruct (UpdateLikeDto.postId d); reflexivity|].
  split; [reflexivity|]. split; [reflexivity|]. split.
  - apply map_id_update_where. apply patchLike_id.
  - intros id' Hne. apply lookup_update_where_other; [apply patchLike_id|].
    exact Hne.
Qed.

Lemma X5_like_update_frame_witness :
  Like.id (Like.mk 2 1 1 70) = Like.id (Like.mk 2 2 1 70) /\
  Like.createdAt (Like.mk 2 1 1 70) = Like.createdAt (Like.mk 2 2 1 70) /\
  Like.userId (Like.mk 2 1 1 70) = 1 /\
  Like.postId (Like.mk 2 1 1 70) = Like.postId (Like.mk 2 2 1 70) /\
  users (snd (PrismaLikesService.update 2 (UpdateLikeDto.mk (Some 1) None)
                (snd (PrismaLikesService.remove 1 two_likes_db))))
  = users (snd (PrismaLikesService.remove 1 two_likes_db)) /\
  posts (snd (PrismaLikesService.update 2 (UpdateLikeDto.mk (Some 1) None)
                (snd (PrismaLikesService.remove 1 two_likes_db))))
  = posts (snd (PrismaLikesService.remove 1 two_likes_db)) /\
  map Like.id
    (likes (snd (PrismaLikesService.update 2 (UpdateLikeDto.mk (Some 1) None)
                   (snd (PrismaLikesService.remove 1 two_likes_db)))))
  = map Like.id (likes (snd (PrismaLikesService.remove 1 two_likes_db))) /\
  (forall id', id' <> 2 ->
     Engine.lookup Like.id id'
       (likes (snd (PrismaLikesService.update 2
                      (UpdateLikeDto.mk (Some 1) None)
                      (snd (PrismaLikesService.remove 1 two_likes_db)))))
     = Engine.lookup Like.id id'
         (likes (snd (PrismaLikesService.remove 1 two_likes_db)))).
Proof.
  apply (X5_like_update_frame (snd (PrismaLikesService.remove 1 two_likes_db))
           2 (Like.mk 2 2 1 70) eq_refl (UpdateLikeDto.mk (Some 1) None)
           (Like.mk 2 1 1 70)).
  right. reflexivity.
Defined.

(** X6. In a store without orphans, an [update] that points an existing
    Like at a user or at a post that does not exist, the id and the
    references of the input being in the range of the schema's [Int],
    fails with ForeignKeyViolation on either side and leaves the store as
    it was. *)
Theorem X6_like_update_missing_reference (db : DB) (id : Z)
        (d : UpdateLikeDto.t) (l : Like.t) :
  prisma_int id ->
  prisma_int_opt (UpdateLikeDto.userId d) ->
  prisma_int_opt (UpdateLikeDto.postId d) ->
  no_orphans db ->
  Engine.lookup Like.id id (likes db) = Some l ->
  (exists u, UpdateLikeDto.userId d = Some u /\
             forall u0, In u0 (users db) -> User.id u0 <> u) \/
  (exists p, UpdateLikeDto.postId d = Some p /\
             forall p0, In p0 (posts db) -> Post.id p0 <> p) ->
  TypeormLikesService.update id d db = (Err ForeignKeyViolation, db) /\
  PrismaLikesService.update id d db = (Err ForeignKeyViolation, db).
Proof.
  intros _ _ _ [_ [Rlu Rlp]] H Hmiss.
  assert (UpdateLikeDto.is_empty d = false) as Hd.
  { unfold UpdateLikeDto.is_empty.
    destruct Hmiss as [[u [-> _]] | [p [-> _]]];
      [|destruct (UpdateLikeDto.userId d)]; reflexivity. }
  assert (like_update_verdict id d l db = Some ForeignKeyViolation) as EV.
  { unfold like_update_verdict.
    rewrite pair_free_of_others.
    - rewrite andb_false_r.
      destruct Hmiss as [[u [Eu Hu]] | [p [Ep Hp]]].
      + rewrite Eu, (exists_id_missing User.id u (users db) Hu). reflexivity.
      + rewrite Ep, (exists_id_missing Post.id p (posts db) Hp).
        rewrite andb_false_r. reflexivity.
    - intros l0 Hin _ [Hu0 Hp0].
      destruct (Rlu l0 Hin) as [u1 [Hu1 Hu2]].
      destruct (Rlp l0 Hin) as [p1 [Hp1 Hp2]].
      destruct Hmiss as [[u [Eu Hu]] | [p [Ep Hp]]].
      + apply (Hu u1 Hu1). simpl in Hu0. rewrite Eu in Hu0. congruence.
      + apply (Hp p1 Hp1). simpl in Hp0. rewrite Ep in Hp0. congruence. }
  destruct (likes_update_existing id d db l H) as [ET EP].
  rewrite (ET Hd), EP, EV. split; reflexivity.
Qed.

Lemma X6_like_update_missing_reference_witness :
  TypeormLikesService.update 2 (UpdateLikeDto.mk None (Some 9)) two_likes_db
  = (Err ForeignKeyViolation, two_likes_db) /\
  PrismaLikesService.update 2 (UpdateLikeDto.mk None (Some 9)) two_likes_db
  = (Err ForeignKeyViolation, two_likes_db).
Proof.
  apply (X6_like_update_missing_reference two_likes_db 2
           (UpdateLikeDto.mk None (Some 9)) (Like.mk 2 2 1 70)).
  - unfold prisma_int. lia.
  - exact I.
  - unfold prisma_int_opt, prisma_int. simpl. lia.
  - apply (int_refs _ (reachable_integrity _ two_likes_db_reachable)).
  - reflexivity.
  - right. exists 9. split; [reflexivity|].
    simpl. intros p [<-|[]]. simpl. lia.
Defined.

(** * Calls in sequence *)

(** X8. For an id in the range of the schema's [Int]: after [remove(id)],
    whether or not there was such a row, [findOne(id)] returns an absent
    result; a second [remove(id)] is a silent success on the TypeORM side
    and fails with NotFound on the Prisma side, and either way writes
    nothing. *)
Theorem X8_remove_then_findOne_and_remove (db : DB) (id : Z) :
  prisma_int id ->
  (let db1 := snd (TypeormLikesService.remove id db) in
   TypeormLikesService.findOne id db1 = (Ok None, db1) /\
   TypeormLikesService.remove id db1 = (Ok tt, db1)) /\
  (let db1 := snd (PrismaLikesService.remove id db) in
   PrismaLikesService.findOne id db1 = (Ok None, db1) /\
   PrismaLikesService.remove id db1 = (Err NotFound, db1)) /\
  (let db1 := snd (TypeormUsersService.remove id db) in
   TypeormUsersService.findOne id db1 = (Ok None, db1) /\
   TypeormUsersService.remove id db1 = (Ok tt, db1)) /\
  (let db1 := snd (PrismaUsersService.remove id db) in
   PrismaUsersService.findOne id db1 = (Ok None, db1) /\
   PrismaUsersService.remove id db1 = (Err NotFound, db1)).
Proof.
  intros _.
  assert (forall db1, Engine.lookup Like.id id (likes db1) = None ->
            (TypeormLikesService.findOne id db1 = (Ok None, db1) /\
             TypeormLikesService.remove id db1 = (Ok tt, db1)) /\
            (PrismaLikesService.findOne id db1 = (Ok None, db1) /\
             PrismaLikesService.remove id db1 = (Err NotFound, db1))) as HL.
  { intros db1 H.
    unfold TypeormLikesService.findOne, LikeRepository.findOne,
      TypeormLikesService.remove, LikeRepository.delete,
      PrismaLikesService.findOne, PrismaLikesService.remove,
      PrismaLike.delete, PrismaLike.findUnique, bind.
    rewrite deleteLike_absent by exact H. rewrite H.
    repeat split. }
  assert (forall db1, Engine.lookup User.id id (users db1) = None ->
            (TypeormUsersService.findOne id db1 = (Ok None, db1) /\
             TypeormUsersService.remove id db1 = (Ok tt, db1)) /\
            (PrismaUsersService.findOne id db1 = (Ok None, db1) /\
             PrismaUsersService.remove id db1 = (Err NotFound, db1))) as HU.
  { intros db1 H.
    unfold TypeormUsersService.findOne, UserRepository.findOne,
      TypeormUsersService.remove, UserRepository.delete,
      PrismaUsersService.findOne, PrismaUsersService.remove,
      PrismaUser.delete, PrismaUser.findUnique, bind.
    rewrite deleteUser_absent by exact H. rewrite H.
    repeat split. }
  split; [|split; [|split]].
  - apply HL.
    unfold TypeormLikesService.remove, LikeRepository.delete, bind,
      Engine.deleteLike. simpl. apply lookup_delete_where.
  - apply HL.
    unfold PrismaLikesService.remove, PrismaLike.delete,
      PrismaLike.findUnique, bind, Engine.deleteLike.
    destruct (Engine.lookup Like.id id (likes db)) eqn:H; simpl;
      [apply lookup_delete_where | exact H].
  - apply HU.
    unfold TypeormUsersService.remove, UserRepository.delete, bind.
    change typeorm_schema with prisma_schema.
    destruct (Engine.lookup User.id id (users db)) as [u|] eqn:H.
    + rewrite (deleteUser_existing id db u H). simpl.
      apply lookup_delete_where.
    + rewrite deleteUser_absent by exact H. exact H.
  - apply HU.
    unfold PrismaUsersService.remove, PrismaUser.delete,
      PrismaUser.findUnique, bind.
    destruct (Engine.lookup User.id id (users db)) as [u|] eqn:H.
    + rewrite (deleteUser_existing id db u H). simpl.
      apply lookup_delete_where.
    + exact H.
Qed.

Lemma X8_remove_then_findOne_and_remove_witness :
  (let db1 := snd (TypeormLikesService.remove 2 two_likes_db) in
   TypeormLikesService.findOne 2 db1 = (Ok None, db1) /\
   TypeormLikesService.remove 2 db1 = (Ok tt, db1)) /\
  (let db1 := snd (PrismaLikesService.remove 2 two_likes_db) in
   PrismaLikesService.findOne 2 db1 = (Ok None, db1) /\
   PrismaLikesService.remove 2 db1 = (Err NotFound, db1)) /\
  (let db1 := snd (TypeormUsersService.remove 2 two_likes_db) in
   TypeormUsersService.findOne 2 db1 = (Ok None, db1) /\
   TypeormUsersService.remove 2 db1 = (Ok tt, db1)) /\
  (let db1 := snd (PrismaUsersService.remove 2 two_likes_db) in
   PrismaUsersService.findOne 2 db1 = (Ok None, db1) /\
   PrismaUsersService.remove 2 db1 = (Err NotFound, db1)).
Proof.
  apply (X8_remove_then_findOne_and_remove two_likes_db 2).
  unfold prisma_int. lia.
Defined.

(** X9. [remove] of a Like, on either side, takes away the likes of that
    id and nothing else: users, posts and the sequences are as before, the
    other likes are all still there and are found under their ids. *)
Theorem X9_like_remove_frame (db : DB) (id : Z) :
  (let db1 := snd (TypeormLikesService.remove id db) in
   users db1 = users db /\ posts db1 = posts db /\
   likes_seq db1 = likes_seq db /\
   (forall l, In l (likes db1) <-> In l (likes db) /\ Like.id l <> id) /\
   (forall id', id' <> id ->
      Engine.lookup Like.id id' (likes db1)
      = Engine.lookup Like.id id' (likes db))) /\
  (let db1 := snd (PrismaLikesService.remove id db) in
   users db1 = users db /\ posts db1 = posts db /\
   likes_seq db1 = likes_seq db /\
   (forall l, In l (likes db1) <-> In l (likes db) /\ Like.id l <> id) /\
   (forall id', id' <> id ->
      Engine.lookup Like.id id' (likes db1)
      = Engine.lookup Like.id id' (likes db))).
Proof.
  assert (let db1 := snd (Engine.deleteLike id db) in
          users db1 = users db /\ posts db1 = posts db /\
          likes_seq db1 = likes_seq db /\
          (forall l, In l (likes db1) <-> In l (likes db) /\ Like.id l <> id) /\
          (forall id', id' <> id ->
             Engine.lookup Like.id id' (likes db1)
             = Engine.lookup Like.id id' (likes db))) as HD.
  { simpl. repeat (split; [reflexivity|]). split.
    - intros l. apply in_delete_where.
    - intros id' Hne. now apply lookup_delete_where_other. }
  split.
  - exact HD.
  - unfold PrismaLikesService.remove, PrismaLike.delete,
      PrismaLike.findUnique, bind.
    destruct (Engine.lookup Like.id id (likes db)) as [l|] eqn:H.
    + exact HD.
    + simpl. repeat (split; [reflexivity|]). split; [|reflexivity].
      intros l. split; [|tauto]. intros Hin. split; [exact Hin|].
      now apply (lookup_none Like.id id (likes db) H).
Qed.

(** * What a user's removal spares and what it ends *)

(** X10. [remove] of an existing User, on either side, deletes exactly that
    user, the posts that user wrote, the likes that user made and the
    likes on those posts: every other user, every post of another author
    and every like by another user on a surviving post is still there, and
    the sequences are as before. *)
Theorem X10_user_remove_survivors (db : DB) (id : Z) (u : User.t) :
  Engine.lookup User.id id (users db) = Some u ->
  exists db',
    TypeormUsersService.remove id db = (Ok tt, db') /\
    PrismaUsersService.remove id db = (Ok u, db') /\
    (forall u', In u' (users db') <-> In u' (users db) /\ User.id u' <> id) /\
    (forall p, In p (posts db') <->
               In p (posts db) /\ Post.authorId p <> id) /\
    (forall l, In l (likes db') <->
               In l (likes db) /\ Like.userId l <> id /\
               forall p, In p (posts db) -> Post.authorId p = id ->
                         Post.id p <> Like.postId l) /\
    users_seq db' = users_seq db /\ posts_seq db' = posts_seq db /\
    likes_seq db' = likes_seq db.
Proof.
  intros H. pose proof (deleteUser_existing id db u H) as E.
  eexists. split; [|split].
  - unfold TypeormUsersService.remove, UserRepository.delete, bind.
    change typeorm_schema with prisma_schema. rewrite E. reflexivity.
  - unfold PrismaUsersService.remove, PrismaUser.delete,
      PrismaUser.findUnique, bind.
    rewrite H, E. reflexivity.
  - simpl. split; [|split; [|split]].
    + intros u'. apply in_delete_where.
    + intros p. rewrite filter_In. unfold Engine.posts_by_user.
      rewrite negb_true_iff, Z.eqb_neq. reflexivity.
    + intros l. rewrite !filter_In. unfold Engine.likes_by_user.
      rewrite !negb_true_iff, Z.eqb_neq.
      split.
      * intros [[Hin Hu] Hon]. repeat split; auto.
        intros p Hp Hauth. apply (likes_on_posts_false _ _ Hon p).
        apply filter_In. split; [exact Hp|].
        unfold Engine.posts_by_user. now apply Z.eqb_eq.
      * intros [Hin [Hu Hposts]]. repeat split; auto.
        unfold Engine.likes_on_posts. apply exists_id_missing.
        intros p Hp. apply filter_In in Hp. destruct Hp as [Hp Hauth].
        unfold Engine.posts_by_user in Hauth. apply Z.eqb_eq in Hauth.
        now apply Hposts.
    + repeat split.
Qed.

Lemma X10_user_remove_survivors_witness :
  exists db',
    TypeormUsersService.remove 2 two_likes_db = (Ok tt, db') /\
    PrismaUsersService.remove 2 two_likes_db
    = (Ok (User.mk 2 "Bob" "b@x.com" 50 50), db') /\
    (forall u', In u' (users db') <->
                In u' (users two_likes_db) /\ User.id u' <> 2) /\
    (forall p, In p (posts db') <->
               In p (posts two_likes_db) /\ Post.authorId p <> 2) /\
    (forall l, In l (likes db') <->
               In l (likes two_likes_db) /\ Like.userId l <> 2 /\
               forall p, In p (posts two_likes_db) -> Post.authorId p = 2 ->
                         Post.id p <> Like.postId l) /\
    users_seq db' = users_seq two_likes_db /\
    posts_seq db' = posts_seq two_likes_db /\
    likes_seq db' = likes_seq two_likes_db.
Proof.
  apply (X10_user_remove_survivors two_likes_db 2). reflexivity.
Defined.

(** X11. Once a User was removed, on either side, no Like can be created
    for that user any more: for whatever post, its id being in the range
    of the schema's [Int], [create] fails with ForeignKeyViolation on
    either side and writes nothing. *)
Theorem X11_removed_user_cannot_like (db : DB) (now id : Z) (u : User.t) :
  Engine.lookup User.id id (users db) = Some u ->
  exists db',
    TypeormUsersService.remove id db = (Ok tt, db') /\
    PrismaUsersService.remove id db = (Ok u, db') /\
    forall postId,
      prisma_int postId ->
      TypeormLikesService.create now (CreateLikeDto.mk id postId) db'
      = (Err ForeignKeyViolation, db') /\
      PrismaLikesService.create now (CreateLikeDto.mk id postId) db'
      = (Err ForeignKeyViolation, db').
Proof.
  intros H. pose proof (deleteUser_existing id db u H) as E.
  eexists. split; [|split].
  - unfold TypeormUsersService.remove, UserRepository.delete, bind.
    change typeorm_schema with prisma_schema. rewrite E. reflexivity.
  - unfold PrismaUsersService.remove, PrismaUser.delete,
      PrismaUser.findUnique, bind.
    rewrite H, E. reflexivity.
  - intros postId _.
    unfold TypeormLikesService.create, LikeRepository.save,
      LikeRepository.create, PrismaLikesService.create, PrismaLike.create,
      Engine.insertLike.
    simpl.
    rewrite pair_free.
    + rewrite (exists_id_missing User.id id).
      * split; reflexivity.
      * intros u' Hin. apply in_delete_where in Hin. tauto.
    + intros l Hin [Hu _]. apply filter_In in Hin. destruct Hin as [Hin _].
      apply filter_In in Hin. destruct Hin as [_ Hown].
      unfold Engine.likes_by_user in Hown.
      apply negb_true_iff, Z.eqb_neq in Hown. contradiction.
Qed.

Lemma X11_removed_user_cannot_like_witness :
  exists db',
    TypeormUsersService.remove 2 two_likes_db = (Ok tt, db') /\
    PrismaUsersService.remove 2 two_likes_db
    = (Ok (User.mk 2 "Bob" "b@x.com" 50 50), db') /\
    forall postId,
      prisma_int postId ->
      TypeormLikesService.create 90 (CreateLikeDto.mk 2 postId) db'
      = (Err ForeignKeyViolation, db') /\
      PrismaLikesService.create 90 (CreateLikeDto.mk 2 postId) db'
      = (Err ForeignKeyViolation, db').
Proof.
  apply (X11_removed_user_cannot_like two_likes_db 90 2). reflexivity.
Defined.

(** X12. Once a User was removed, on either side, the email is free
    again: in a store where emails were unique, a [create] with the removed
    user's email succeeds on either side, under a new identifier. *)
Theorem X12_removed_email_is_free (db : DB) (now id : Z) (u : User.t) :
  ids_below_seq db -> emails_unique db ->
  Engine.lookup User.id id (users db) = Some u ->
  exists db',
    TypeormUsersService.remove id db = (Ok tt, db') /\
    PrismaUsersService.remove id db = (Ok u, db') /\
    forall name,
    exists u2 db2,
      TypeormUsersService.create now (CreateUserDto.mk name (User.email u)) db'
      = (Ok u2, db2) /\
      PrismaUsersService.create now (CreateUserDto.mk name (User.email u)) db'
      = (Ok u2, db2) /\
      User.email u2 = User.email u /\ User.id u < User.id u2.
Proof.
  intros [Su _] He H. pose proof (deleteUser_existing id db u H) as E.
  destruct (lookup_some User.id id (users db) u H) as [Hin Hid].
  eexists. split; [|split].
  - unfold TypeormUsersService.remove, UserRepository.delete, bind.
    change typeorm_schema with prisma_schema. rewrite E. reflexivity.
  - unfold PrismaUsersService.remove, PrismaUser.delete,
      PrismaUser.findUnique, bind.
    rewrite H, E. reflexivity.
  - intros name.
    unfold TypeormUsersService.create, UserRepository.save,
      UserRepository.create, PrismaUsersService.create, PrismaUser.create,
      Engine.insertUser.
    simpl.
    rewrite email_free.
    + eexists. eexists. split; [reflexivity|]. split; [reflexivity|].
      simpl. split; [reflexivity|]. now apply Su.
    + intros u' Hin'. apply in_delete_where in Hin'.
      destruct Hin' as [Hin' Hne]. apply He; auto. congruence.
Qed.

Lemma X12_removed_email_is_free_witness :
  exists db',
    TypeormUsersService.remove 2 two_likes_db = (Ok tt, db') /\
    PrismaUsersService.remove 2 two_likes_db
    = (Ok (User.mk 2 "Bob" "b@x.com" 50 50), db') /\
    forall name,
    exists u2 db2,
      TypeormUsersService.create 90 (CreateUserDto.mk name "b@x.com") db'
      = (Ok u2, db2) /\
      PrismaUsersService.create 90 (CreateUserDto.mk name "b@x.com") db'
      = (Ok u2, db2) /\
      User.email u2 = "b@x.com"%string /\ 2 < User.id u2.
Proof.
  apply (X12_removed_email_is_free two_likes_db 90 2
           (User.mk 2 "Bob" "b@x.com" 50 50)).
  - apply (int_seq _ (reachable_integrity _ two_likes_db_reachable)).
  - apply (int_emails _ (reachable_integrity _ two_likes_db_reachable)).
  - reflexivity.
Defined.

(** * Liking again, and writing what is already there *)

(** X13. Unlike, then like again: in a store of unique pairs and without
    orphans, after [remove] of an existing Like a [create] with the same
    user and post succeeds on either side, and the new row gets an
    identifier above the removed one, which is never handed out again. *)
Theorem X13_like_again_gets_new_id (db : DB) (now id : Z) (l : Like.t) :
  ids_below_seq db -> pairs_unique db -> no_orphans db ->
  Engine.lookup Like.id id (likes db) = Some l ->
  exists db1,
    TypeormLikesService.remove id db = (Ok tt, db1) /\
    PrismaLikesService.remove id db = (Ok l, db1) /\
    exists l2 db2,
      TypeormLikesService.create now
        (CreateLikeDto.mk (Like.userId l) (Like.postId l)) db1 = (Ok l2, db2) /\
      PrismaLikesService.create now
        (CreateLikeDto.mk (Like.userId l) (Like.postId l)) db1 = (Ok l2, db2) /\
      Like.userId l2 = Like.userId l /\ Like.postId l2 = Like.postId l /\
      Like.id l < Like.id l2.
Proof.
  intros [_ [_ Sl]] Hpairs [_ [Rlu Rlp]] H.
  destruct (lookup_some Like.id id (likes db) l H) as [Hin Hid].
  eexists. split; [|split].
  - unfold TypeormLikesService.remove, LikeRepository.delete, bind,
      Engine.deleteLike. reflexivity.
  - unfold PrismaLikesService.remove, PrismaLike.delete,
      PrismaLike.findUnique, bind, Engine.deleteLike.
    rewrite H. reflexivity.
  - unfold TypeormLikesService.create, LikeRepository.save,
      LikeRepository.create, PrismaLikesService.create, PrismaLike.create,
      Engine.insertLike.
    simpl.
    rewrite pair_free.
    + rewrite (exists_id_present User.id _ _ (Rlu l Hin)).
      rewrite (exists_id_present Post.id _ _ (Rlp l Hin)).
      simpl. eexists. eexists.
      split; [reflexivity|]. split; [reflexivity|].
      simpl. repeat split. now apply Sl.
    + intros l0 Hin0. apply in_delete_where in Hin0.
      destruct Hin0 as [Hin0 Hne]. apply Hpairs; auto. congruence.
Qed.

Lemma X13_like_again_gets_new_id_witness :
  exists db1,
    TypeormLikesService.remove 2 two_likes_db = (Ok tt, db1) /\
    PrismaLikesService.remove 2 two_likes_db = (Ok (Like.mk 2 2 1 70), db1) /\
    exists l2 db2,
      TypeormLikesService.create 90 (CreateLikeDto.mk 2 1) db1 = (Ok l2, db2) /\
      PrismaLikesService.create 90 (CreateLikeDto.mk 2 1) db1 = (Ok l2, db2) /\
      Like.userId l2 = 2 /\ Like.postId l2 = 1 /\ 2 < Like.id l2.
Proof.
  apply (X13_like_again_gets_new_id two_likes_db 90 2 (Like.mk 2 2 1 70)).
  - apply (int_seq _ (reachable_integrity _ two_likes_db_reachable)).
  - apply (int_pairs _ (reachable_integrity _ two_likes_db_reachable)).
  - apply (int_refs _ (reachable_integrity _ two_likes_db_reachable)).
  - reflexivity.
Defined.

Lemma patchLike_own (l : Like.t) :
  Engine.patchLike
    (UpdateLikeDto.mk (Some (Like.userId l)) (Some (Like.postId l))) l = l.
Proof. now destruct l. Qed.

(** X14. Writing what is already there is not a conflict. In a store of
    full integrity, an [update] of a User that gives the email the user
    already has succeeds on either side, and an [update] of a Like that
    gives the user and post it already has succeeds on either side,
    returns the row as it is and leaves the store as it was (a Like has no
    [updatedAt] to refresh). *)
Theorem X14_update_with_own_values (db : DB) (now id : Z) :
  Integrity db ->
  (forall u name,
      Engine.lookup User.id id (users db) = Some u ->
      exists db',
        TypeormUsersService.update now id
          (UpdateUserDto.mk name (Some (User.email u))) db
        = (Ok (Some (User.mk (User.id u)
                       (match name with Some n => n | None => User.name u end)
                       (User.email u) (User.createdAt u) now)), db') /\
        PrismaUsersService.update now id
          (UpdateUserDto.mk name (Some (User.email u))) db
        = (Ok (User.mk (User.id u)
                 (match name with Some n => n | None => User.name u end)
                 (User.email u) (User.createdAt u) now), db')) /\
  (forall l,
      Engine.lookup Like.id id (likes db) = Some l ->
      TypeormLikesService.update id
        (UpdateLikeDto.mk (Some (Like.userId l)) (Some (Like.postId l))) db
      = (Ok (Some l), db) /\
      PrismaLikesService.update id
        (UpdateLikeDto.mk (Some (Like.userId l)) (Some (Like.postId l))) db
      = (Ok l, db)).
Proof.
  intros [[_ [_ Hl]] _ He Hpairs [_ [Rlu Rlp]]]. split.
  - intros u name H.
    destruct (lookup_some User.id id (users db) u H) as [Hin Hid].
    destruct (users_update_existing now id
                (UpdateUserDto.mk name (Some (User.email u))) db u H)
      as [ET EP].
    assert (user_email_conflict id
              (UpdateUserDto.mk name (Some (User.email u))) db = false) as EC.
    { unfold user_email_conflict. simpl.
      destruct (Engine.email_taken_by_other id (User.email u) (users db))
               eqn:E; [|reflexivity].
      apply email_taken_by_other_true in E.
      destruct E as [u0 [Hin0 [Hne Heq]]].
      exfalso. apply (He u0 u Hin0 Hin); congruence. }
    rewrite EC in ET, EP.
    assert (UpdateUserDto.is_empty
              (UpdateUserDto.mk name (Some (User.email u))) = false) as Hne
      by now destruct name.
    rewrite Hne in EP.
    eexists. split; [exact ET | exact EP].
  - intros l H.
    destruct (lookup_some Like.id id (likes db) l H) as [Hin Hid].
    destruct (likes_update_existing id
                (UpdateLikeDto.mk (Some (Like.userId l)) (Some (Like.postId l)))
                db l H) as [ET EP].
    specialize (ET eq_refl).
    assert (like_update_verdict id
              (UpdateLikeDto.mk (Some (Like.userId l)) (Some (Like.postId l)))
              l db = None) as EV.
    { unfold like_update_verdict. rewrite patchLike_own. simpl.
      rewrite pair_free_of_others.
      - rewrite (exists_id_present User.id _ _ (Rlu l Hin)).
        rewrite (exists_id_present Post.id _ _ (Rlp l Hin)). reflexivity.
      - intros l0 Hin0 Hne. apply Hpairs; auto. congruence. }
    assert (Engine.update_where Like.id id
              (Engine.patchLike
                 (UpdateLikeDto.mk (Some (Like.userId l))
                    (Some (Like.postId l)))) (likes db) = likes db) as EW.
    { unfold Engine.update_where. rewrite <- (map_id (likes db)) at 2.
      apply map_ext_in. intros r Hr. unfold Engine.has_id.
      destruct (Z.eqb_spec (Like.id r) id) as [Er|Er]; [|reflexivity].
      assert (r = l) as ->
        by (apply (same_id_same_row Like.id (likes db)); auto; congruence).
      apply patchLike_own. }
    rewrite EV, EW, set_likes_same, patchLike_own in ET, EP.
    split; [exact ET | exact EP].
Qed.

Lemma X14_update_with_own_values_witness :
  (exists db',
      TypeormUsersService.update 99 2
        (UpdateUserDto.mk None (Some "b@x.com"%string)) two_likes_db
      = (Ok (Some (User.mk 2 "Bob" "b@x.com" 50 99)), db') /\
      PrismaUsersService.update 99 2
        (UpdateUserDto.mk None (Some "b@x.com"%string)) two_likes_db
      = (Ok (User.mk 2 "Bob" "b@x.com" 50 99), db')) /\
  (TypeormLikesService.update 2 (UpdateLikeDto.mk (Some 2) (Some 1))
     two_likes_db = (Ok (Some (Like.mk 2 2 1 70)), two_likes_db) /\
   PrismaLikesService.update 2 (UpdateLikeDto.mk (Some 2) (Some 1))
     two_likes_db = (Ok (Like.mk 2 2 1 70), two_likes_db)).
Proof.
  pose proof (X14_update_with_own_values two_likes_db 99 2
                (reachable_integrity _ two_likes_db_reachable)) as [HU HL].
  split.
  - apply (HU (User.mk 2 "Bob" "b@x.com" 50 50) None). reflexivity.
  - apply (HL (Like.mk 2 2 1 70)). reflexivity.
Defined.

(** * Listing and finding *)

(** X15. With unique primary keys, [findAll] and [findOne] agree, on
    either side, for likes and for users: [findAll] lists no row twice,
    and a row is listed exactly when [findOne] of its id returns it. *)
Theorem X15_findAll_agrees_with_findOne (db : DB) :
  ids_unique db ->
  (exists rows,
      TypeormLikesService.findAll db = (Ok rows, db) /\
      PrismaLikesService.findAll db = (Ok rows, db) /\
      NoDup rows /\
      forall l,
        (In l rows <->
         TypeormLikesService.findOne (Like.id l) db = (Ok (Some l), db)) /\
        (In l rows <->
         PrismaLikesService.findOne (Like.id l) db = (Ok (Some l), db))) /\
  (exists rows,
      TypeormUsersService.findAll db = (Ok rows, db) /\
      PrismaUsersService.findAll db = (Ok rows, db) /\
      NoDup rows /\
      forall u,
        (In u rows <->
         TypeormUsersService.findOne (User.id u) db = (Ok (Some u), db)) /\
        (In u rows <->
         PrismaUsersService.findOne (User.id u) db = (Ok (Some u), db))).
Proof.
  intros [Hu [_ Hl]].
  assert (forall (R : Type) (rid : R -> Z) (rows : list R) (r : R),
             NoDup (map rid rows) ->
             (In r rows <->
              (Ok (Engine.lookup rid (rid r) rows), db) = (Ok (Some r), db)))
    as Hagree.
  { intros R rid rows r Hnd. split.
    - intros Hin. now rewrite (lookup_unique rid (rid r) rows r Hnd Hin eq_refl).
    - intros Heq. inversion Heq as [E].
      now destruct (lookup_some rid (rid r) rows r E). }
  split.
  - exists (likes db). split; [reflexivity|]. split; [reflexivity|].
    split; [exact (NoDup_map_inv _ _ Hl)|].
    intros l. split; apply (Hagree _ Like.id (likes db) l Hl).
  - exists (users db). split; [reflexivity|]. split; [reflexivity|].
    split; [exact (NoDup_map_inv _ _ Hu)|].
    intros u. split; apply (Hagree _ User.id (users db) u Hu).
Qed.

Lemma X15_findAll_agrees_with_findOne_witness :
  (exists rows,
      TypeormLikesService.findAll two_likes_db = (Ok rows, two_likes_db) /\
      PrismaLikesService.findAll two_likes_db = (Ok rows, two_likes_db) /\
      NoDup rows /\
      forall l,
        (In l rows <->
         TypeormLikesService.findOne (Like.id l) two_likes_db
         = (Ok (Some l), two_likes_db)) /\
        (In l rows <->
         PrismaLikesService.findOne (Like.id l) two_likes_db
         = (Ok (Some l), two_likes_db))) /\
  (exists rows,
      TypeormUsersService.findAll two_likes_db = (Ok rows, two_likes_db) /\
      PrismaUsersService.findAll two_likes_db = (Ok rows, two_likes_db) /\
      NoDup rows /\
      forall u,
        (In u rows <->
         TypeormUsersService.findOne (User.id u) two_likes_db
         = (Ok (Some u), two_likes_db)) /\
        (In u rows <->
         PrismaUsersService.findOne (User.id u) two_likes_db
         = (Ok (Some u), two_likes_db))).
Proof.
  apply (X15_findAll_agrees_with_findOne two_likes_db).
  apply (int_ids _ (reachable_integrity _ two_likes_db_reachable)).
Defined.

(** * Changing a user's email *)

(** X16. An [update] that gives an existing User an email no other user
    has succeeds on either side; from then on the new email is taken, so a
    [create] with it fails with UniquenessViolation, and, where emails
    were unique, the old email, if it differs, is free, so a [create] with
    it succeeds. *)
Theorem X16_user_email_change (db : DB) (now id : Z) (u : User.t)
        (e : string) :
  Engine.lookup User.id id (users db) = Some u ->
  (forall other, In other (users db) -> User.id other <> id ->
                 User.email other <> e) ->
  exists db',
    TypeormUsersService.update now id (UpdateUserDto.mk None (Some e)) db
    = (Ok (Some (User.mk (User.id u) (User.name u) e (User.createdAt u) now)),
       db') /\
    PrismaUsersService.update now id (UpdateUserDto.mk None (Some e)) db
    = (Ok (User.mk (User.id u) (User.name u) e (User.createdAt u) now), db') /\
    (forall now' name,
        TypeormUsersService.create now' (CreateUserDto.mk name e) db'
        = (Err UniquenessViolation, db') /\
        PrismaUsersService.create now' (CreateUserDto.mk name e) db'
        = (Err UniquenessViolation, db')) /\
    (emails_unique db -> e <> User.email u ->
     forall now' name,
     exists u2 db2,
       TypeormUsersService.create now' (CreateUserDto.mk name (User.email u))
         db' = (Ok u2, db2) /\
       PrismaUsersService.create now' (CreateUserDto.mk name (User.email u))
         db' = (Ok u2, db2) /\
       User.email u2 = User.email u).
Proof.
  intros H Hfree.
  destruct (lookup_some User.id id (users db) u H) as [Hin Hid].
  destruct (users_update_existing now id (UpdateUserDto.mk None (Some e))
              db u H) as [ET EP].
  assert (user_email_conflict id (UpdateUserDto.mk None (Some e)) db = false)
    as EC.
  { unfold user_email_conflict. simpl.
    destruct (Engine.email_taken_by_other id e (users db)) eqn:E;
      [|reflexivity].
    apply email_taken_by_other_true in E.
    destruct E as [u0 [Hin0 [Hne Heq]]].
    now destruct (Hfree u0 Hin0 Hne). }
  rewrite EC in ET, EP.
  change (UpdateUserDto.is_empty (UpdateUserDto.mk None (Some e)))
    with false in EP.
  eexists. split; [exact ET|]. split; [exact EP|]. split.
  - intros now' name.
    unfold TypeormUsersService.create, UserRepository.save,
      UserRepository.create, PrismaUsersService.create, PrismaUser.create,
      Engine.insertUser.
    simpl.
    assert (Engine.email_taken e
              (Engine.update_where User.id id
                 (Engine.patchUser now (UpdateUserDto.mk None (Some e)))
                 (users db)) = true) as ET'.
    { apply email_taken_true.
      exists (Engine.patchUser now (UpdateUserDto.mk None (Some e)) u).
      split; [|reflexivity].
      apply in_update_where.
      exists u. split; [exact Hin|]. left. split; [exact Hid | reflexivity]. }
    rewrite ET'. split; reflexivity.
  - intros He Hne now' name.
    unfold TypeormUsersService.create, UserRepository.save,
      UserRepository.create, PrismaUsersService.create, PrismaUser.create,
      Engine.insertUser.
    simpl.
    rewrite email_free.
    + eexists. eexists. split; [reflexivity|]. split; reflexivity.
    + intros u' Hin'. apply in_update_where in Hin'.
      destruct Hin' as [r [Hr [[Hrid ->] | [Hrid ->]]]].
      * simpl. exact Hne.
      * apply He; auto. congruence.
Qed.

Lemma X16_user_email_change_witness :
  exists db',
    TypeormUsersService.update 99 2
      (UpdateUserDto.mk None (Some "r@x.com"%string)) two_likes_db
    = (Ok (Some (User.mk 2 "Bob" "r@x.com" 50 99)), db') /\
    PrismaUsersService.update 99 2
      (UpdateUserDto.mk None (Some "r@x.com"%string)) two_likes_db
    = (Ok (User.mk 2 "Bob" "r@x.com" 50 99), db') /\
    (forall now' name,
        TypeormUsersService.create now' (CreateUserDto.mk name "r@x.com") db'
        = (Err UniquenessViolation, db') /\
        PrismaUsersService.create now' (CreateUserDto.mk name "r@x.com") db'
        = (Err UniquenessViolation, db')) /\
    (emails_unique two_likes_db -> "r@x.com"%string <> "b@x.com"%string ->
     forall now' name,
     exists u2 db2,
       TypeormUsersService.create now' (CreateUserDto.mk name "b@x.com") db'
       = (Ok u2, db2) /\
       PrismaUsersService.create now' (CreateUserDto.mk name "b@x.com") db'
       = (Ok u2, db2) /\
       User.email u2 = "b@x.com"%string).
Proof.
  apply (X16_user_email_change two_likes_db 99 2
           (User.mk 2 "Bob" "b@x.com" 50 50) "r@x.com"%string).
  - reflexivity.
  - simpl. intros other [<-|[<-|[]]] Hne; simpl; discriminate.
Defined.

(** * Stores the services can build *)

(** X17. Whatever history of service calls, on either side, succeeding or
    failing, built a store from the empty one: no two rows of a table
    share their id, every id is below its table's sequence (so the next
    [create] cannot collide), and every post has its author and every like
    its user and its post. *)
Theorem X17_reachable_store_is_sound (db : DB) :
  reachable db ->
  ids_unique db /\ ids_below_seq db /\ no_orphans db.
Proof.
  intros H. destruct (reachable_integrity db H) as [Hi Hs _ _ Hr].
  split; [exact Hi | split; [exact Hs | exact Hr]].
Qed.

Lemma X17_reachable_store_is_sound_witness :
  ids_unique two_likes_db /\ ids_below_seq two_likes_db /\
  no_orphans two_likes_db.
Proof.
  apply (X17_reachable_store_is_sound two_likes_db).
  apply two_likes_db_reachable.
Defined.
